(** * JSLoader: the JavaScript resource loader of node-haste

    A shallow embedding of [lib/loader/JSLoader.js] and the properties of
    its docblock interpretation, its optional extraction stages, the
    javelin symbol fold, [matchPath] and the [postProcess] pass.

    Conventions.
    - A JavaScript string is a [string]: a sequence of code units, here
      restricted to the code units below 256.
    - A slot that holds a string or is absent ([undefined]/[null]) is an
      [option string].
    - Callbacks are continuations; what a call does in the turn it runs in
      and in the turns it leaves behind is a [Run]. *)

From Stdlib Require Import ZArith Ascii String.
From stdpp Require Import base list strings gmap.

Local Open Scope string_scope.
Local Open Scope list_scope.
Local Open Scope stdpp_scope.

(** ** String primitives of the host language *)

Module JSString.

(** The line feed, the only separator of [output.split(/\n/)]. *)
Definition LF : ascii := ascii_of_nat 10.

(** [\s] on code units below 256: TAB, LF, VT, FF, CR, SPACE, NBSP. *)
Definition is_space (c : ascii) : bool :=
  let n := nat_of_ascii c in
  ((9 <=? n) && (n <=? 13) || (n =? 32) || (n =? 160))%nat.

(** [\d]: the ten decimal digits. *)
Definition is_digit (c : ascii) : bool :=
  let n := nat_of_ascii c in ((48 <=? n) && (n <=? 57))%nat.

(** Prepends a code unit to the first piece of a split. *)
Definition cons_first (c : ascii) (pieces : list string) : list string :=
  match pieces with
  | [] => [String c ""]
  | p :: ps => String c p :: ps
  end.

(** [s.split(/\s+/)], started with [in_ws = false]: pieces between maximal
    runs of white space; a leading or trailing run leaves an empty piece,
    and the empty string splits into one empty piece. *)
Fixpoint split_ws_from (in_ws : bool) (s : string) : list string :=
  match s with
  | "" => [""]
  | String c r =>
      if is_space c
      then (if in_ws then split_ws_from true r else "" :: split_ws_from true r)
      else cons_first c (split_ws_from false r)
  end.

Definition split_ws (s : string) : list string := split_ws_from false s.

(** [s.split(sep)] for a separator of one code unit (['.'], [/\n/]). *)
Fixpoint split_on (sep : ascii) (s : string) : list string :=
  match s with
  | "" => [""]
  | String c r =>
      if Ascii.eqb c sep then "" :: split_on sep r
      else cons_first c (split_on sep r)
  end.

Fixpoint all_digits (s : string) : bool :=
  match s with
  | "" => true
  | String c r => is_digit c && all_digits r
  end.

(** [line.replace(/:\d+$/, '')]: the leftmost colon followed by one or
    more digits up to the end of the string is cut off with them. *)
Fixpoint strip_line_number (s : string) : string :=
  match s with
  | "" => ""
  | String c r =>
      if Ascii.eqb c ":" && negb (String.eqb r "") && all_digits r
      then ""
      else String c (strip_line_number r)
  end.

(** [s.substr(1)] *)
Definition substr1 (s : string) : string :=
  match s with "" => "" | String _ r => r end.

(** [s[0]]: the first code unit, or [undefined]. *)
Definition first (s : string) : option ascii :=
  match s with "" => None | String c _ => Some c end.

(** [s.charAt(0) === '.'] *)
Definition starts_with_dot (s : string) : bool :=
  match s with String "." _ => true | _ => false end.

(** String conversion of a string-or-undefined operand of [+]. *)
Definition to_string (v : option string) : string :=
  match v with Some s => s | None => "undefined" end.

(** Truthiness of a string-or-undefined value. *)
Definition truthy (v : option string) : bool :=
  match v with Some (String _ _) => true | _ => false end.

(** [s.lastIndexOf(needle)] on the suffix [s] that starts at index [i] of
    the whole string: the largest index of an occurrence, or [-1]. *)
Fixpoint lastIndexOf_from (needle s : string) (i : Z) : Z :=
  match s with
  | "" => if String.prefix needle "" then i else (-1)%Z
  | String _ r =>
      let later := lastIndexOf_from needle r (i + 1)%Z in
      if (0 <=? later)%Z then later
      else if String.prefix needle s then i else (-1)%Z
  end.

Definition lastIndexOf (needle s : string) : Z := lastIndexOf_from needle s 0.

(** [s.length] *)
Definition length (s : string) : Z := Z.of_nat (String.length s).

End JSString.

(** ** Paths

    [postProcess] calls [path.dirname] and [path.join] of the platform
    library. They are modelled for POSIX paths, after what the platform
    does: [join] joins its non-empty arguments with a slash and normalizes
    the result, resolving [.] and [..] segments and runs of slashes;
    [dirname] cuts the last segment off. *)

Module Path.
Import JSString.

Definition join_with_slash (parts : list string) : string :=
  match parts with
  | [] => ""
  | p :: ps => fold_left (fun acc q => acc +:+ "/" +:+ q) ps p
  end.

(** Resolves ["."] and [".."] segments, right to left; [up] counts the
    [".."] still to be applied. *)
Fixpoint normalize_rev (parts_rev : list string) (up : nat) : list string * nat :=
  match parts_rev with
  | [] => ([], up)
  | p :: rest =>
      if String.eqb p "." then normalize_rev rest up
      else if String.eqb p ".." then normalize_rev rest (S up)
      else match up with
           | S up' => normalize_rev rest up'
           | O => let '(kept, up') := normalize_rev rest O in (kept ++ [p], up')
           end
  end.

Definition normalizeArray (parts : list string) (allowAboveRoot : bool) : list string :=
  let '(kept, up) := normalize_rev (rev parts) O in
  if allowAboveRoot then replicate up ".." ++ kept else kept.

Definition isAbsolute (p : string) : bool :=
  match p with String "/" _ => true | _ => false end.

Fixpoint ends_with_slash (p : string) : bool :=
  match p with
  | "" => false
  | String c "" => Ascii.eqb c "/"
  | String _ r => ends_with_slash r
  end.

Definition nonempty (s : string) : bool := negb (String.eqb s "").

Definition normalize (p : string) : string :=
  let abs := isAbsolute p in
  let body := join_with_slash
                (normalizeArray (filter (fun s => nonempty s = true) (split_on "/" p))
                                (negb abs)) in
  let body := if negb (nonempty body) && negb abs then "." else body in
  let body := if nonempty body && ends_with_slash p then body +:+ "/" else body in
  (if abs then "/" else "") +:+ body.

(** [path.join(a, b)]: the non-empty arguments joined by ["/"], normalized. *)
Definition join (a b : string) : string :=
  normalize (join_with_slash (filter (fun s => nonempty s = true) [a; b])).

(** The scan of [dirname] from the last code unit down to index 1: [chars]
    holds the code units at the indices [i], [i - 1], ..., 1. It skips the
    slashes at the end and stops at the first slash below a code unit that
    is none. *)
Fixpoint dirname_end (chars : list ascii) (i : nat) (matchedSlash : bool) : option nat :=
  match chars with
  | [] => None
  | c :: below =>
      if Ascii.eqb c "/"
      then (if matchedSlash then dirname_end below (i - 1) true else Some i)
      else dirname_end below (i - 1) false
  end.

(** [path.dirname(p)] *)
Definition dirname (p : string) : string :=
  match p with
  | "" => "."
  | String c0 rest =>
      let hasRoot := Ascii.eqb c0 "/" in
      match dirname_end (rev (list_ascii_of_string rest)) (String.length rest) true with
      | None => if hasRoot then "/" else "."
      | Some e => if hasRoot && (e =? 1)%nat then "//" else String.substring 0 e p
      end
  end.

End Path.

(** ** [matchPath] *)

(** [filePath.lastIndexOf('.js') === filePath.length - 3] *)
Definition matchPath (filePath : string) : bool :=
  (JSString.lastIndexOf ".js" filePath =? JSString.length filePath - 3)%Z.

(** ** The resource descriptor *)

Module JS.

(** Modelled from the spec: the descriptor class [JS] of
    [lib/resource/JS.js] is not part of the loader source; its fields and
    their initial values follow the data model of the specification. An
    entry of [requiredModules] is a string, or [undefined] once
    [postProcess] has stored the absent id of a resource there. *)
Record t : Type := make {
  path : string;
  id : option string;
  isModule : bool;
  isLegacy : bool;
  isRunWhenReady : bool;
  isJavelin : bool;
  isPolyfill : bool;
  isPermanent : bool;
  isNopackage : bool;
  isJSXEnabled : bool;
  jsxDOMImplementor : option string;
  requiredModules : list (option string);
  requiredLegacyComponents : list string;
  requiredCSS : list string;
  options : gmap string bool;
  definedJavelinSymbols : list string;
  requiredJavelinSymbols : list string;
  networkSize : option nat
}.

(** Modelled from the spec: [new JS(path)], the fresh descriptor: only
    [path] is set, every flag is false, every list and map is empty. *)
Definition new (p : string) : t :=
  make p None false false false false false false false false
       None [] [] [] ∅ [] [] None.

(** [js.id = v] *)
Definition set_id (v : option string) (js : t) : t :=
  make (path js) v (isModule js) (isLegacy js) (isRunWhenReady js)
       (isJavelin js) (isPolyfill js) (isPermanent js) (isNopackage js)
       (isJSXEnabled js) (jsxDOMImplementor js) (requiredModules js)
       (requiredLegacyComponents js) (requiredCSS js) (options js)
       (definedJavelinSymbols js) (requiredJavelinSymbols js)
       (networkSize js).

(** [js.isModule = v] *)
Definition set_isModule (v : bool) (js : t) : t :=
  make (path js) (id js) v (isLegacy js) (isRunWhenReady js)
       (isJavelin js) (isPolyfill js) (isPermanent js) (isNopackage js)
       (isJSXEnabled js) (jsxDOMImplementor js) (requiredModules js)
       (requiredLegacyComponents js) (requiredCSS js) (options js)
       (definedJavelinSymbols js) (requiredJavelinSymbols js)
       (networkSize js).

(** [js.isLegacy = v] *)
Definition set_isLegacy (v : bool) (js : t) : t :=
  make (path js) (id js) (isModule js) v (isRunWhenReady js)
       (isJavelin js) (isPolyfill js) (isPermanent js) (isNopackage js)
       (isJSXEnabled js) (jsxDOMImplementor js) (requiredModules js)
       (requiredLegacyComponents js) (requiredCSS js) (options js)
       (definedJavelinSymbols js) (requiredJavelinSymbols js)
       (networkSize js).

(** [js.isRunWhenReady = v] *)
Definition set_isRunWhenReady (v : bool) (js : t) : t :=
  make (path js) (id js) (isModule js) (isLegacy js) v (isJavelin js)
       (isPolyfill js) (isPermanent js) (isNopackage js) (isJSXEnabled js)
       (jsxDOMImplementor js) (requiredModules js)
       (requiredLegacyComponents js) (requiredCSS js) (options js)
       (definedJavelinSymbols js) (requiredJavelinSymbols js)
       (networkSize js).

(** [js.isJavelin = v] *)
Definition set_isJavelin (v : bool) (js : t) : t :=
  make (path js) (id js) (isModule js) (isLegacy js) (isRunWhenReady js) v
       (isPolyfill js) (isPermanent js) (isNopackage js) (isJSXEnabled js)
       (jsxDOMImplementor js) (requiredModules js)
       (requiredLegacyComponents js) (requiredCSS js) (options js)
       (definedJavelinSymbols js) (requiredJavelinSymbols js)
       (networkSize js).

(** [js.isPolyfill = v] *)
Definition set_isPolyfill (v : bool) (js : t) : t :=
  make (path js) (id js) (isModule js) (isLegacy js) (isRunWhenReady js)
       (isJavelin js) v (isPermanent js) (isNopackage js)
       (isJSXEnabled js) (jsxDOMImplementor js) (requiredModules js)
       (requiredLegacyComponents js) (requiredCSS js) (options js)
       (definedJavelinSymbols js) (requiredJavelinSymbols js)
       (networkSize js).

(** [js.isPermanent = v] *)
Definition set_isPermanent (v : bool) (js : t) : t :=
  make (path js) (id js) (isModule js) (isLegacy js) (isRunWhenReady js)
       (isJavelin js) (isPolyfill js) v (isNopackage js) (isJSXEnabled js)
       (jsxDOMImplementor js) (requiredModules js)
       (requiredLegacyComponents js) (requiredCSS js) (options js)
       (definedJavelinSymbols js) (requiredJavelinSymbols js)
       (networkSize js).

(** [js.isNopackage = v] *)
Definition set_isNopackage (v : bool) (js : t) : t :=
  make (path js) (id js) (isModule js) (isLegacy js) (isRunWhenReady js)
       (isJavelin js) (isPolyfill js) (isPermanent js) v (isJSXEnabled js)
       (jsxDOMImplementor js) (requiredModules js)
       (requiredLegacyComponents js) (requiredCSS js) (options js)
       (definedJavelinSymbols js) (requiredJavelinSymbols js)
       (networkSize js).

(** [js.isJSXEnabled = v] *)
Definition set_isJSXEnabled (v : bool) (js : t) : t :=
  make (path js) (id js) (isModule js) (isLegacy js) (isRunWhenReady js)
       (isJavelin js) (isPolyfill js) (isPermanent js) (isNopackage js) v
       (jsxDOMImplementor js) (requiredModules js)
       (requiredLegacyComponents js) (requiredCSS js) (options js)
       (definedJavelinSymbols js) (requiredJavelinSymbols js)
       (networkSize js).

(** [js.jsxDOMImplementor = v] *)
Definition set_jsxDOMImplementor (v : option string) (js : t) : t :=
  make (path js) (id js) (isModule js) (isLegacy js) (isRunWhenReady js)
       (isJavelin js) (isPolyfill js) (isPermanent js) (isNopackage js)
       (isJSXEnabled js) v (requiredModules js)
       (requiredLegacyComponents js) (requiredCSS js) (options js)
       (definedJavelinSymbols js) (requiredJavelinSymbols js)
       (networkSize js).

(** [js.requiredModules = v] *)
Definition set_requiredModules (v : list (option string)) (js : t) : t :=
  make (path js) (id js) (isModule js) (isLegacy js) (isRunWhenReady js)
       (isJavelin js) (isPolyfill js) (isPermanent js) (isNopackage js)
       (isJSXEnabled js) (jsxDOMImplementor js) v
       (requiredLegacyComponents js) (requiredCSS js) (options js)
       (definedJavelinSymbols js) (requiredJavelinSymbols js)
       (networkSize js).

(** [js.requiredLegacyComponents = v] *)
Definition set_requiredLegacyComponents (v : list string) (js : t) : t :=
  make (path js) (id js) (isModule js) (isLegacy js) (isRunWhenReady js)
       (isJavelin js) (isPolyfill js) (isPermanent js) (isNopackage js)
       (isJSXEnabled js) (jsxDOMImplementor js) (requiredModules js) v
       (requiredCSS js) (options js) (definedJavelinSymbols js)
       (requiredJavelinSymbols js) (networkSize js).

(** [js.requiredCSS = v] *)
Definition set_requiredCSS (v : list string) (js : t) : t :=
  make (path js) (id js) (isModule js) (isLegacy js) (isRunWhenReady js)
       (isJavelin js) (isPolyfill js) (isPermanent js) (isNopackage js)
       (isJSXEnabled js) (jsxDOMImplementor js) (requiredModules js)
       (requiredLegacyComponents js) v (options js)
       (definedJavelinSymbols js) (requiredJavelinSymbols js)
       (networkSize js).

(** [js.options = v] *)
Definition set_options (v : gmap string bool) (js : t) : t :=
  make (path js) (id js) (isModule js) (isLegacy js) (isRunWhenReady js)
       (isJavelin js) (isPolyfill js) (isPermanent js) (isNopackage js)
       (isJSXEnabled js) (jsxDOMImplementor js) (requiredModules js)
       (requiredLegacyComponents js) (requiredCSS js) v
       (definedJavelinSymbols js) (requiredJavelinSymbols js)
       (networkSize js).

(** [js.definedJavelinSymbols = v] *)
Definition set_definedJavelinSymbols (v : list string) (js : t) : t :=
  make (path js) (id js) (isModule js) (isLegacy js) (isRunWhenReady js)
       (isJavelin js) (isPolyfill js) (isPermanent js) (isNopackage js)
       (isJSXEnabled js) (jsxDOMImplementor js) (requiredModules js)
       (requiredLegacyComponents js) (requiredCSS js) (options js) v
       (requiredJavelinSymbols js) (networkSize js).

(** [js.requiredJavelinSymbols = v] *)
Definition set_requiredJavelinSymbols (v : list string) (js : t) : t :=
  make (path js) (id js) (isModule js) (isLegacy js) (isRunWhenReady js)
       (isJavelin js) (isPolyfill js) (isPermanent js) (isNopackage js)
       (isJSXEnabled js) (jsxDOMImplementor js) (requiredModules js)
       (requiredLegacyComponents js) (requiredCSS js) (options js)
       (definedJavelinSymbols js) v (networkSize js).

(** [js.networkSize = v] *)
Definition set_networkSize (v : option nat) (js : t) : t :=
  make (path js) (id js) (isModule js) (isLegacy js) (isRunWhenReady js)
       (isJavelin js) (isPolyfill js) (isPermanent js) (isNopackage js)
       (isJSXEnabled js) (jsxDOMImplementor js) (requiredModules js)
       (requiredLegacyComponents js) (requiredCSS js) (options js)
       (definedJavelinSymbols js) (requiredJavelinSymbols js) v.

End JS.

(** ** Runs

    The loader is written with callbacks. A function that takes a callback
    is embedded in continuation-passing style and yields a [Run]: the calls
    it makes to its collaborators in the current turn of the event loop, in
    order, and below [NextTick], [Deflate] and [Exec] the runs it leaves
    for later turns. *)

Inductive Run : Type :=
| Return
    (* the synchronous code has returned *)
| Uncaught (what : string)
    (* an exception leaves the turn *)
| Complete (err : option string) (js : JS.t) (rest : Run)
    (* the completion callback is called with (err, js) *)
| ExtractRequireCalls (sourceCode : string) (rest : Run)
    (* commonjs.extractRequireCalls(sourceCode) *)
| ResolveID (p : string) (rest : Run)
    (* configuration.resolveID(p) *)
| NextTick (task : Run) (rest : Run)
    (* process.nextTick(task) *)
| Deflate (sourceCode : string) (oncomplete : Run) (rest : Run)
    (* zlib.deflate(sourceCode, oncomplete) *)
| Exec (command stdin : string) (onexit : Run) (rest : Run).
    (* childProcess.exec(command), stdin fed, 'exit' listener installed *)

(** A callback of the node convention, [(err, js)]. *)
Definition Callback : Type := option string → JS.t → Run.

(** The observer used to state properties: it records the call. *)
Definition report : Callback := λ err js, Complete err js Return.

(** Completion calls made in the turn of the call itself. *)
Fixpoint completions_now (r : Run) : list (option string * JS.t) :=
  match r with
  | Return | Uncaught _ => []
  | Complete err js rest => (err, js) :: completions_now rest
  | ExtractRequireCalls _ rest | ResolveID _ rest => completions_now rest
  | NextTick _ rest | Deflate _ _ rest | Exec _ _ _ rest => completions_now rest
  end.

(** Completion calls of the whole run, later turns included. *)
Fixpoint completions (r : Run) : list (option string * JS.t) :=
  match r with
  | Return | Uncaught _ => []
  | Complete err js rest => (err, js) :: completions rest
  | ExtractRequireCalls _ rest | ResolveID _ rest => completions rest
  | NextTick later rest | Deflate _ later rest | Exec _ _ later rest =>
      completions rest ++ completions later
  end.

(** Source texts handed to the require extractor, anywhere in the run. *)
Fixpoint extractions (r : Run) : list string :=
  match r with
  | Return | Uncaught _ => []
  | ExtractRequireCalls src rest => src :: extractions rest
  | Complete _ _ rest | ResolveID _ rest => extractions rest
  | NextTick later rest | Deflate _ later rest | Exec _ _ later rest =>
      extractions rest ++ extractions later
  end.

(** Number of compressions and subprocesses started, anywhere in the run. *)
Fixpoint enrichments (r : Run) : nat :=
  match r with
  | Return | Uncaught _ => 0
  | Complete _ _ rest | ExtractRequireCalls _ rest | ResolveID _ rest =>
      enrichments rest
  | NextTick later rest => enrichments rest + enrichments later
  | Deflate _ later rest | Exec _ _ later rest =>
      S (enrichments rest + enrichments later)
  end.

(** Exceptions that escape, anywhere in the run. *)
Fixpoint uncaught (r : Run) : nat :=
  match r with
  | Return => 0
  | Uncaught _ => 1
  | Complete _ _ rest | ExtractRequireCalls _ rest | ResolveID _ rest =>
      uncaught rest
  | NextTick later rest | Deflate _ later rest | Exec _ _ later rest =>
      uncaught rest + uncaught later
  end.

(** ** Collaborators *)

(** The parts of the host and of the library that the loader calls and
    that decide what it sees: the docblock module, the require extractor,
    the compression routine and the symbol classification tool. Every
    compression is taken to call back and every run of the tool to exit. *)
Record Env : Type := {
  docblock_extract : string → string;
  docblock_parse : string → list (string * string);
  extractRequireCalls : string → list string;
  (* zlib.deflate: the length of the buffer handed to the callback, or
     [None] when the callback receives an error and no buffer *)
  zlib_deflate : string → option nat;
  (* the text the tool at the given command has written by its exit, for
     the given standard input *)
  javelinsymbols : string → string → string
}.

(** The project configuration, as far as the loader uses it. *)
Record ProjectConfiguration : Type := {
  resolveID : string → option string
}.

(** ** Objects used as sets of keys

    [defines] and [requires] of the symbol fold only ever store [true]; such
    an object is the list of its keys in insertion order, the order in which
    [Object.keys] lists keys that are not array indices. *)

Module Keys.

(** [o[k]], as a condition *)
Definition has (k : string) (o : list string) : bool := bool_decide (k ∈ o).

(** [o[k] = true] *)
Definition put (k : string) (o : list string) : list string :=
  if has k o then o else o ++ [k].

(** [delete o[k]] *)
Definition remove (k : string) (o : list string) : list string :=
  filter (λ k', k' ≠ k) o.

End Keys.

(** ** The loader *)

Module JSLoader.
Import JSString.

(** The [options] argument of the constructor. Of [networkSize] and
    [extractJavelin] only the truth value is used. *)
Record Options : Type := {
  networkSize : bool;
  extractJavelin : bool;
  javelinsymbolsPath : option string
}.

(** [{}]: no option given *)
Definition no_options : Options :=
  {| networkSize := false; extractJavelin := false; javelinsymbolsPath := None |}.

(** [extractNetworkSize(js, sourceCode, callback)] *)
Definition extractNetworkSize
    (env : Env) (js : JS.t) (sourceCode : string) (callback : Callback) : Run :=
  Deflate sourceCode
    (match zlib_deflate env sourceCode with
     | Some len => callback None (JS.set_networkSize (Some len) js)
     | None => Uncaught "TypeError: buffer is undefined"
     end)
    Return.

(** The accumulators of the symbol fold, with the descriptor. *)
Record Symbols : Type := {
  defines : list string;
  requires : list string;
  descriptor : JS.t
}.

(** The body of the [forEach] over the lines of the tool's output. *)
Definition classify_line (acc : Symbols) (line : string) : Symbols :=
  let line := strip_line_number line in
  match first line with
  | Some "+"%char =>
      let name := "JX." +:+ substr1 line in
      {| defines := Keys.put name (defines acc);
         requires := Keys.put "JX.install" (Keys.remove name (requires acc));
         descriptor := JS.set_id (Some name) (descriptor acc) |}
  | Some "?"%char =>
      let name := "JX." +:+ to_string (split_on "." line !! 1%nat) in
      if negb (Keys.has name (defines acc))
      then {| defines := defines acc;
              requires := Keys.put name (requires acc);
              descriptor := descriptor acc |}
      else acc
  | Some "*"%char =>
      let name := "javelin-behavior-" +:+ substr1 line in
      {| defines := Keys.put name (defines acc);
         requires := Keys.put "JX.behavior" (Keys.remove name (requires acc));
         descriptor := JS.set_id (Some name) (descriptor acc) |}
  | _ => acc
  end.

(** The fold of [_javelinSymbolsCallback] up to the two [Object.keys]. *)
Definition classify (js : JS.t) (output : string) : Symbols :=
  fold_left classify_line (split_on LF output)
            {| defines := []; requires := []; descriptor := js |}.

(** The descriptor [_javelinSymbolsCallback] hands to its callback. *)
Definition javelinSymbols (js : JS.t) (output : string) : JS.t :=
  let acc := classify js output in
  JS.set_requiredJavelinSymbols (requires acc)
    (JS.set_definedJavelinSymbols (defines acc) (descriptor acc)).

(** [_javelinSymbolsCallback(js, output, callback)] *)
Definition _javelinSymbolsCallback
    (js : JS.t) (output : string) (callback : Callback) : Run :=
  callback None (javelinSymbols js output).

(** [extractJavelinSymbols(js, code, callback)], with
    [this.javelinsymbolsPath] as first argument. *)
Definition extractJavelinSymbols
    (toolPath : string) (env : Env) (js : JS.t) (code : string)
    (callback : Callback) : Run :=
  if negb (JS.isJavelin js) then callback None js
  else Exec toolPath code
         (_javelinSymbolsCallback js (javelinsymbols env toolPath code) callback)
         Return.

(** A constructed loader: the tool path and the [extractExtra] function
    generated by the constructor. *)
Record t : Type := {
  this_javelinsymbolsPath : string;
  extractExtra : Env → JS.t → string → Callback → Run
}.

(** [new JSLoader(options)]. In the two-stage pipeline the callback given
    to the symbol stage is [extractNetworkSize] bound to the descriptor
    object, which by then carries what the symbol stage stored in it. *)
Definition create (options : option Options) : t :=
  let options := default no_options options in
  let extractNetworkSize_on := networkSize options in
  let extractJavelin_on :=
    extractJavelin options || truthy (javelinsymbolsPath options) in
  let toolPath :=
    if truthy (javelinsymbolsPath options)
    then to_string (javelinsymbolsPath options)
    else "/scripts/javelin/javelinsymbols" in
  {| this_javelinsymbolsPath := toolPath;
     extractExtra :=
       if extractJavelin_on && extractNetworkSize_on then
         λ env js sourceCode callback,
           extractJavelinSymbols toolPath env js sourceCode
             (λ _ js', extractNetworkSize env js' sourceCode callback)
       else if extractJavelin_on then extractJavelinSymbols toolPath
       else if extractNetworkSize_on then extractNetworkSize
       else
         λ _ js _ callback, NextTick (callback None js) Return |}.

(** [getExtensions()] *)
Definition getExtensions : list string := [".js"].

(** The body of the [forEach] over the tag/value pairs of the docblock. *)
Definition interpret (js : JS.t) (pair : string * string) : JS.t :=
  let '(name, value) := pair in
  if String.eqb name "provides" then
    JS.set_id (split_ws value !! 0%nat) (JS.set_isModule false js)
  else if String.eqb name "providesModule" then
    JS.set_id (split_ws value !! 0%nat) (JS.set_isModule true js)
  else if String.eqb name "providesLegacy" then
    JS.set_id (Some ("legacy:" +:+ to_string (split_ws value !! 0%nat)))
      (JS.set_isModule true (JS.set_isLegacy true (JS.set_isRunWhenReady true js)))
  else if String.eqb name "css" then
    JS.set_requiredCSS (JS.requiredCSS js ++ split_ws value) js
  else if String.eqb name "requires" then
    JS.set_requiredLegacyComponents
      (JS.requiredLegacyComponents js ++ split_ws value) js
  else if String.eqb name "javelin" then
    JS.set_isRunWhenReady true (JS.set_isJavelin true (JS.set_isModule true js))
  else if String.eqb name "polyfill" then JS.set_isPolyfill true js
  else if String.eqb name "runWhenReady_DEPRECATED" then
    JS.set_isRunWhenReady true js
  else if String.eqb name "jsx" then
    let js := JS.set_jsxDOMImplementor (Some value)
                (JS.set_isJSXEnabled true js) in
    if truthy (Some value)
    then JS.set_requiredModules (JS.requiredModules js ++ [Some value]) js
    else js
  else if String.eqb name "permanent" then JS.set_isPermanent true js
  else if String.eqb name "nopackage" then JS.set_isNopackage true js
  else if String.eqb name "option" || String.eqb name "options" then
    JS.set_options
      (fold_left (λ opts key, <[key := true]> opts) (split_ws value)
                 (JS.options js)) js
  else js.

(** The tag/value pairs the docblock module finds in a source text. *)
Definition docblock_props (env : Env) (sourceCode : string) : list (string * string) :=
  docblock_parse env (docblock_extract env sourceCode).

(** [parseDocblockOptions(js, sourceCode)] *)
Definition parseDocblockOptions (env : Env) (js : JS.t) (sourceCode : string) : JS.t :=
  fold_left interpret (docblock_props env sourceCode) js.

(** [js.options.ignore], as a condition *)
Definition ignored (js : JS.t) : bool :=
  match JS.options js !! "ignore" with Some b => b | None => false end.

(** [loadFromSource(path, configuration, sourceCode, callback)] *)
Definition loadFromSource
    (this : t) (env : Env) (path : string)
    (configuration : option ProjectConfiguration)
    (sourceCode : string) (callback : Callback) : Run :=
  let js := JS.new path in
  let js := match configuration with
            | Some _ => JS.set_isModule true js
            | None => js
            end in
  let js := parseDocblockOptions env js sourceCode in
  if ignored js then callback None js
  else if JS.isModule js then
    ExtractRequireCalls sourceCode
      (let requires := extractRequireCalls env sourceCode in
       let finish js :=
         extractExtra this env
           (JS.set_requiredModules (JS.requiredModules js ++ (Some <$> requires)) js)
           sourceCode callback in
       match configuration with
       | Some cfg =>
           if negb (truthy (JS.id js))
           then ResolveID (JS.path js)
                  (finish (JS.set_id (resolveID cfg (JS.path js)) js))
           else finish js
       | None => finish js
       end)
  else extractExtra this env js sourceCode callback.

(** Modelled from the spec: the container of all resources of a build
    ([ResourceMap], not part of the loader source) with its lookup of a
    resource by path, as a finite map from paths to resources. *)
Definition getResourceByPath (map : gmap string JS.t) (p : string) : option JS.t :=
  map !! p.

(** Modelled from the spec: the container that holds the given resources,
    each under its path. *)
Definition resourceMap (resources : list JS.t) : gmap string JS.t :=
  list_to_map ((λ r, (JS.path r, r)) <$> resources).

(** How a loop over an array ends. *)
Inductive Outcome : Type :=
| Finished
| Threw (what : string)
| OutOfFuel.

(** The [for] loop of [postProcess] over [required = r.requiredModules],
    from index [i] on; [rpath] is [r.path]. An entry that is [undefined]
    has no [charAt]. *)
Fixpoint resolve_from (map : gmap string JS.t) (rpath : string)
    (fuel i : nat) (required : list (option string))
    : list (option string) * Outcome :=
  match fuel with
  | O => (required, OutOfFuel)
  | S fuel =>
      match required !! i with
      | None => (required, Finished)
      | Some None => (required, Threw "TypeError: req is undefined")
      | Some (Some req) =>
          if starts_with_dot req then
            let relative := Path.join (Path.dirname rpath) req in
            let resource :=
              match getResourceByPath map (relative +:+ ".js") with
              | Some res => Some res
              | None => getResourceByPath map (relative +:+ "/index.js")
              end in
            match resource with
            | None => resolve_from map rpath fuel (S i) required
            | Some resource =>
                resolve_from map rpath fuel (S i) (<[i := JS.id resource]> required)
            end
          else resolve_from map rpath fuel (S i) required
      end
  end.

(** The body of the [forEach] over the resources. The loop ends when [i]
    reaches the length, which no iteration changes. *)
Definition resolve (map : gmap string JS.t) (r : JS.t) : JS.t * Outcome :=
  let '(required, outcome) :=
    resolve_from map (JS.path r) (S (List.length (JS.requiredModules r))) 0
                 (JS.requiredModules r) in
  (JS.set_requiredModules required r, outcome).

(** [resources.forEach(...)]: an exception ends the iteration. *)
Fixpoint resolve_each (map : gmap string JS.t) (resources : list JS.t)
    : list JS.t * Outcome :=
  match resources with
  | [] => ([], Finished)
  | r :: rest =>
      match resolve map r with
      | (r', Finished) =>
          let '(rest', outcome) := resolve_each map rest in (r' :: rest', outcome)
      | (r', outcome) => (r' :: rest, outcome)
      end
  end.

(** [postProcess(map, resources, callback)]: the resources as the pass
    leaves them, and its run. The pass reads of the resources in [map]
    only [id], which it never writes, so that [map] can stand for the
    container during the whole pass although it holds the very objects
    of [resources]. *)
Definition postProcess (map : gmap string JS.t) (resources : list JS.t)
    (callback : Run) : list JS.t * Run :=
  match resolve_each map resources with
  | (resources', Finished) => (resources', NextTick callback Return)
  | (resources', Threw what) => (resources', Uncaught what)
  | (resources', OutOfFuel) => (resources', Uncaught "out of fuel")
  end.

End JSLoader.

(** * Vocabulary of the properties *)

Section Vocabulary.
Import JSString.

(** The text of a value up to its first white space: what
    [value.split(/\s+/)[0]] selects. *)
Fixpoint first_token (s : string) : string :=
  match s with
  | "" => ""
  | String c r => if is_space c then "" else String c (first_token r)
  end.

(** The tags that assign [js.id]. *)
Definition sets_id (pair : string * string) : bool :=
  String.eqb pair.1 "provides" || String.eqb pair.1 "providesModule"
  || String.eqb pair.1 "providesLegacy".

(** The id such a tag assigns. *)
Definition id_set_by (pair : string * string) : option string :=
  if String.eqb pair.1 "providesLegacy"
  then Some ("legacy:" +:+ first_token pair.2)
  else Some (first_token pair.2).

(** The four tags that the specification lists as setting the id. *)
Definition listed_as_setting_id (pair : string * string) : bool :=
  sets_id pair || String.eqb pair.1 "javelin".

(** An [option] or [options] tag with the token [ignore]. *)
Definition carries_ignore (pair : string * string) : bool :=
  (String.eqb pair.1 "option" || String.eqb pair.1 "options")
  && bool_decide ("ignore" ∈ split_ws pair.2).

Definition requests_ignore (props : list (string * string)) : bool :=
  existsb carries_ignore props.

(** The values of the [jsx] tags, in order. *)
Definition jsx_values (props : list (string * string)) : list string :=
  snd <$> filter (λ pair, String.eqb pair.1 "jsx" = true) props.

(** The values that [jsx] tags append to [requiredModules]. *)
Definition jsx_modules (props : list (string * string)) : list (option string) :=
  Some <$> filter (λ v, v ≠ "") (jsx_values props).

(** [props.forEach(...)], pair after pair *)
Definition interpret_all (props : list (string * string)) (js : JS.t) : JS.t :=
  fold_left JSLoader.interpret props js.

(** A set of collaborators for examples: the docblock module finds [props]
    in every text, the require extractor finds [requires], compression
    answers [deflated] and the symbol tool writes [output]. *)
Definition fixture (props : list (string * string)) (requires : list string)
    (deflated : option nat) (output : string) : Env :=
  {| docblock_extract := λ sourceCode, sourceCode;
     docblock_parse := λ _, props;
     extractRequireCalls := λ _, requires;
     zlib_deflate := λ _, deflated;
     javelinsymbols := λ _ _, output |}.

Definition nl : string := String LF "".

(** The three lines [+Widget], [?Other.method], [*menu]. *)
Definition three_lines : string :=
  "+Widget" +:+ nl +:+ "?Other.method" +:+ nl +:+ "*menu".

(** The same with a reference that carries the namespace:
    [?JX.Other.method]. *)
Definition three_lines_qualified : string :=
  "+Widget" +:+ nl +:+ "?JX.Other.method" +:+ nl +:+ "*menu".

(** A symbol that ends up both defined and required is one of the two
    primitives that a definition or a behavior requires by itself. *)
Definition overlap_only_primitives (acc : JSLoader.Symbols) : Prop :=
  ∀ s, s ∈ JSLoader.defines acc → s ∈ JSLoader.requires acc →
       s = "JX.install" ∨ s = "JX.behavior".

(** The descriptor before tag interpretation: [new JS(path)], a module
    when a configuration is given. *)
Definition fresh (path : string) (configuration : option ProjectConfiguration) : JS.t :=
  match configuration with
  | Some _ => JS.set_isModule true (JS.new path)
  | None => JS.new path
  end.

(** The descriptor after tag interpretation. *)
Definition tagged (env : Env) (path : string)
    (configuration : option ProjectConfiguration) (sourceCode : string) : JS.t :=
  JSLoader.parseDocblockOptions env (fresh path configuration) sourceCode.

(** The descriptor handed to [extractExtra]: for a module, with the id
    resolved through the configuration when no tag gave one, and with
    the extracted require calls appended. *)
Definition prepared (env : Env) (path : string)
    (configuration : option ProjectConfiguration) (sourceCode : string) : JS.t :=
  let js := tagged env path configuration sourceCode in
  if JS.isModule js then
    let js :=
      match configuration with
      | Some cfg =>
          if negb (truthy (JS.id js))
          then JS.set_id (resolveID cfg (JS.path js)) js else js
      | None => js
      end in
    JS.set_requiredModules
      (JS.requiredModules js ++ (Some <$> extractRequireCalls env sourceCode)) js
  else js.

Definition networkSize_on (options : option JSLoader.Options) : bool :=
  JSLoader.networkSize (default JSLoader.no_options options).

Definition javelin_on (options : option JSLoader.Options) : bool :=
  let o := default JSLoader.no_options options in
  JSLoader.extractJavelin o || truthy (JSLoader.javelinsymbolsPath o).

(** What the symbol stage makes of a descriptor. *)
Definition classified (options : option JSLoader.Options) (env : Env)
    (js : JS.t) (sourceCode : string) : JS.t :=
  if javelin_on options && JS.isJavelin js
  then JSLoader.javelinSymbols js
         (javelinsymbols env
            (JSLoader.this_javelinsymbolsPath (JSLoader.create options)) sourceCode)
  else js.

(** The descriptor that the generated pipeline completes with, if it
    completes. *)
Definition enriched (options : option JSLoader.Options) (env : Env)
    (js : JS.t) (sourceCode : string) : option JS.t :=
  let js := classified options env js sourceCode in
  if networkSize_on options
  then (λ len, JS.set_networkSize (Some len) js) <$> zlib_deflate env sourceCode
  else Some js.

(** What a required module is to become: an entry that begins with a dot
    is joined to the directory of the resource at [rpath] and looked up
    with [.js] appended, then with [/index.js] appended; the id of the
    resource found replaces it, and it stays when none is found. *)
Definition resolved (map : gmap string JS.t) (rpath req : string) : option string :=
  if starts_with_dot req then
    let relative := Path.join (Path.dirname rpath) req in
    match JSLoader.getResourceByPath map (relative +:+ ".js") with
    | Some resource => JS.id resource
    | None =>
        match JSLoader.getResourceByPath map (relative +:+ "/index.js") with
        | Some resource => JS.id resource
        | None => Some req
        end
    end
  else Some req.

(** A resource with every required module resolved, each in its place. *)
Definition rewritten (map : gmap string JS.t) (r : JS.t) : JS.t :=
  JS.set_requiredModules
    ((λ entry, entry ≫= resolved map (JS.path r)) <$> JS.requiredModules r) r.

Definition foo : JS.t := JS.set_id (Some "Foo") (JS.new "foo/index.js").

(** [bar.js], which requires [entry]. *)
Definition bar (entry : string) : JS.t :=
  JS.set_requiredModules [Some entry] (JS.set_id (Some "Bar") (JS.new "bar.js")).

(** The tag names with a case in the [switch] of [parseDocblockOptions]. *)
Definition known_tag (name : string) : bool :=
  existsb (String.eqb name)
    ["provides"; "providesModule"; "providesLegacy"; "css"; "requires";
     "javelin"; "polyfill"; "runWhenReady_DEPRECATED"; "jsx"; "permanent";
     "nopackage"; "option"; "options"].

(** Some pair has the tag [name]. *)
Definition has_tag (name : string) (props : list (string * string)) : bool :=
  existsb (λ pair, String.eqb pair.1 name) props.

(** The white-space separated pieces of the values of the tags whose name
    satisfies [wanted], in order. *)
Definition tokens_of (wanted : string → bool) (props : list (string * string))
    : list string :=
  concat ((λ pair, if wanted pair.1 then split_ws pair.2 else []) <$> props).


(** The tags that assign [js.isModule]. *)
Definition sets_isModule (pair : string * string) : bool :=
  String.eqb pair.1 "provides" || String.eqb pair.1 "providesModule"
  || String.eqb pair.1 "providesLegacy" || String.eqb pair.1 "javelin".

(** A line of the tool that installs a unit: [+] after the line number is
    cut off. *)
Definition installs (line : string) : bool :=
  match first (strip_line_number line) with
  | Some "+"%char => true
  | _ => false
  end.

(** A line of the tool that defines a symbol: an installed unit or a
    behavior. *)
Definition definer (line : string) : bool :=
  match first (strip_line_number line) with
  | Some "+"%char | Some "*"%char => true
  | _ => false
  end.

(** The symbol a defining line defines. *)
Definition defined_name (line : string) : string :=
  let line := strip_line_number line in
  match first line with
  | Some "*"%char => "javelin-behavior-" +:+ substr1 line
  | _ => "JX." +:+ substr1 line
  end.

(** The subprocesses of a run, later turns included: command and input. *)
Fixpoint commands (r : Run) : list (string * string) :=
  match r with
  | Return | Uncaught _ => []
  | Complete _ _ rest | ExtractRequireCalls _ rest | ResolveID _ rest =>
      commands rest
  | NextTick later rest | Deflate _ later rest => commands rest ++ commands later
  | Exec command stdin later rest =>
      (command, stdin) :: commands rest ++ commands later
  end.

(** The texts a run hands to compression, later turns included. *)
Fixpoint compressions (r : Run) : list string :=
  match r with
  | Return | Uncaught _ => []
  | Complete _ _ rest | ExtractRequireCalls _ rest | ResolveID _ rest =>
      compressions rest
  | NextTick later rest | Exec _ _ later rest =>
      compressions rest ++ compressions later
  | Deflate src later rest => src :: compressions rest ++ compressions later
  end.

(** The paths a run asks the configuration to resolve. *)
Fixpoint resolutions (r : Run) : list string :=
  match r with
  | Return | Uncaught _ => []
  | ResolveID p rest => p :: resolutions rest
  | Complete _ _ rest | ExtractRequireCalls _ rest => resolutions rest
  | NextTick later rest | Deflate _ later rest | Exec _ _ later rest =>
      resolutions rest ++ resolutions later
  end.

End Vocabulary.

(** * Properties *)

(** ** [matchPath] *)

Section MatchPath.

Lemma append_nil (b : string) : "" +:+ b = b.
Proof. reflexivity. Qed.

Lemma append_cons (c : ascii) (a b : string) :
  String c a +:+ b = String c (a +:+ b).
Proof. reflexivity. Qed.

Lemma prefix_app (needle b : string) :
  String.prefix needle b = true ↔ ∃ c, b = needle +:+ c.
Proof.
  revert b. induction needle as [|x needle IH]; intros [|y b]; simpl.
  - split; [intros _; by exists "" | done].
  - split; [intros _; by exists (String y b) | done].
  - split; [done | intros [c Hc]; discriminate].
  - destruct (Ascii.ascii_dec x y) as [->|Hxy].
    + rewrite IH. split; intros [c Hc]; exists c; rewrite append_cons in *; congruence.
    + split; [done | intros [c Hc]; rewrite append_cons in Hc; congruence].
Qed.

Lemma lastIndexOf_from_range needle s i :
  JSString.lastIndexOf_from needle s i = (-1)%Z ∨
  (i ≤ JSString.lastIndexOf_from needle s i)%Z.
Proof.
  revert i. induction s as [|c r IH]; intros i; cbn [JSString.lastIndexOf_from].
  - destruct (String.prefix needle ""); lia.
  - destruct (Z.leb_spec 0 (JSString.lastIndexOf_from needle r (i + 1))).
    + destruct (IH (i + 1)%Z); lia.
    + destruct (String.prefix needle (String c r)); lia.
Qed.

(** A result other than [-1] is the index of an occurrence. *)
Lemma lastIndexOf_from_found needle s i :
  (0 ≤ i)%Z →
  JSString.lastIndexOf_from needle s i ≠ (-1)%Z →
  ∃ a b, s = a +:+ b ∧ String.prefix needle b = true ∧
         JSString.lastIndexOf_from needle s i = (i + JSString.length a)%Z.
Proof.
  revert i. induction s as [|c r IH]; intros i Hi.
  - cbn [JSString.lastIndexOf_from]. destruct (String.prefix needle "") eqn:Hp; [|done].
    intros _. exists "", "". unfold JSString.length. simpl. split_and!; [done..|lia].
  - cbn [JSString.lastIndexOf_from].
    destruct (Z.leb_spec 0 (JSString.lastIndexOf_from needle r (i + 1))) as [Hl|Hl].
    + intros _. destruct (IH (i + 1)%Z) as (a & b & -> & Hp & Hr); [lia..|].
      exists (String c a), b. split_and!; [done..|].
      rewrite Hr. unfold JSString.length. simpl. lia.
    + destruct (String.prefix needle (String c r)) eqn:Hp; [|done].
      intros _. exists "", (String c r). unfold JSString.length. simpl.
      split_and!; [done..|lia].
Qed.

(** No occurrence lies to the right of the result. *)
Lemma lastIndexOf_from_last needle a b i :
  (0 ≤ i)%Z → String.prefix needle b = true →
  (i + JSString.length a ≤ JSString.lastIndexOf_from needle (a +:+ b) i)%Z.
Proof.
  revert i. induction a as [|c a IH]; intros i Hi Hp.
  - unfold JSString.length. rewrite append_nil. simpl String.length.
    destruct b as [|c r]; cbn [JSString.lastIndexOf_from].
    + rewrite Hp. lia.
    + destruct (Z.leb_spec 0 (JSString.lastIndexOf_from needle r (i + 1))).
      * destruct (lastIndexOf_from_range needle r (i + 1)); lia.
      * rewrite Hp. lia.
  - rewrite append_cons. cbn [JSString.lastIndexOf_from].
    specialize (IH (i + 1)%Z ltac:(lia) Hp).
    unfold JSString.length in *. simpl String.length.
    destruct (Z.leb_spec 0 (JSString.lastIndexOf_from needle (a +:+ b) (i + 1))); lia.
Qed.

Lemma length_app (a b : string) :
  String.length (a +:+ b) = String.length a + String.length b.
Proof. induction a; rewrite ?append_nil, ?append_cons; simpl; congruence. Qed.

(** What [matchPath] accepts: the paths that end in [.js], and every
    path of two code units, for which [lastIndexOf] and [length - 3] are
    both [-1]. *)
Lemma matchPath_iff (filePath : string) :
  matchPath filePath = true ↔
  (∃ stem, filePath = stem +:+ ".js") ∨ String.length filePath = 2.
Proof.
  unfold matchPath, JSString.lastIndexOf. rewrite Z.eqb_eq. split.
  - intros Heq.
    destruct (decide (JSString.lastIndexOf_from ".js" filePath 0 = (-1)%Z)) as [Hm|Hm].
    + right. unfold JSString.length in Heq. lia.
    + left. destruct (lastIndexOf_from_found ".js" filePath 0) as (a & b & -> & Hp & Hr);
        [lia|done|].
      apply prefix_app in Hp as [c ->]. exists a.
      rewrite Hr in Heq. unfold JSString.length in Heq.
      rewrite !length_app in Heq. simpl in Heq.
      destruct c; [done | simpl in Heq; lia].
  - intros [[stem ->]|Hlen].
    + pose proof (lastIndexOf_from_last ".js" stem ".js" 0 ltac:(lia) eq_refl) as Hge.
      destruct (lastIndexOf_from_found ".js" (stem +:+ ".js") 0) as (a & b & Hab & Hp & Hr);
        [lia| unfold JSString.length in Hge; lia |].
      apply prefix_app in Hp as [c ->].
      apply (f_equal String.length) in Hab. rewrite !length_app in Hab. simpl in Hab.
      unfold JSString.length in *. rewrite length_app. simpl. lia.
    + destruct (decide (JSString.lastIndexOf_from ".js" filePath 0 = (-1)%Z)) as [Hm|Hm].
      * unfold JSString.length. lia.
      * destruct (lastIndexOf_from_found ".js" filePath 0) as (a & b & Hab & Hp & Hr);
          [lia|done|].
        apply prefix_app in Hp as [c ->].
        apply (f_equal String.length) in Hab. rewrite !length_app in Hab. simpl in Hab. lia.
Qed.

(** C7. [matchPath] is to accept exactly the paths that end in [.js]. It
    does on every path that ends in [.js], and it rejects the empty path
    and paths of one code unit, but it accepts [ab], a path of two code
    units that does not end in [.js]: [lastIndexOf] answers [-1], which
    is [length - 3]. *)
Theorem matchPath_accepts_two_code_units :
  matchPath "ab" = true ∧ (∀ stem, "ab" ≠ stem +:+ ".js") ∧
  matchPath "" = false ∧ matchPath "a" = false ∧ matchPath "lib/a.js" = true.
Proof.
  split_and!; try reflexivity.
  intros stem H. apply (f_equal String.length) in H.
  rewrite length_app in H. simpl in H. lia.
Qed.

End MatchPath.

(** ** Tag interpretation *)

Section TagInterpretation.
Import JSString.

Lemma split_ws_from_head (s : string) :
  split_ws_from false s !! 0 = Some (first_token s).
Proof.
  induction s as [|c r IH]; [done|]. simpl.
  destruct (is_space c); [done|].
  destruct (split_ws_from false r); simpl in *; congruence.
Qed.

Lemma split_ws_head (s : string) : split_ws s !! 0 = Some (first_token s).
Proof. apply split_ws_from_head. Qed.

(** Case analysis on the tag name, one literal after the other. *)
Ltac tag_cases name :=
  repeat match goal with
  | |- context [String.eqb name ?lit] =>
      destruct (String.eqb_spec name lit) as [->|?]; simpl
  end.

Lemma interpret_id (js : JS.t) (pair : string * string) :
  JS.id (JSLoader.interpret js pair) =
  if sets_id pair then id_set_by pair else JS.id js.
Proof.
  destruct pair as [name value].
  unfold JSLoader.interpret, sets_id, id_set_by. simpl.
  tag_cases name; rewrite ?split_ws_head; try done.
  by destruct value.
Qed.

Lemma interpret_requiredModules (js : JS.t) (pair : string * string) :
  JS.requiredModules (JSLoader.interpret js pair) =
  JS.requiredModules js ++ jsx_modules [pair].
Proof.
  destruct pair as [name value].
  unfold JSLoader.interpret, jsx_modules, jsx_values.
  rewrite filter_cons, filter_nil. simpl.
  tag_cases name; rewrite ?app_nil_r; try done.
  destruct value as [|c value]; [by rewrite app_nil_r|].
  by rewrite filter_cons, decide_True.
Qed.

Lemma interpret_jsx (js : JS.t) (pair : string * string) :
  JS.isJSXEnabled (JSLoader.interpret js pair) =
    (JS.isJSXEnabled js || String.eqb pair.1 "jsx") ∧
  JS.jsxDOMImplementor (JSLoader.interpret js pair) =
    (if String.eqb pair.1 "jsx" then Some pair.2 else JS.jsxDOMImplementor js).
Proof.
  destruct pair as [name value]. unfold JSLoader.interpret. simpl.
  tag_cases name; rewrite ?orb_false_r, ?orb_true_r; try done.
  by destruct value.
Qed.

Lemma set_keys_lookup (keys : list string) (opts : gmap string bool) (k : string) :
  fold_left (λ opts key, <[key := true]> opts) keys opts !! k =
  if bool_decide (k ∈ keys) then Some true else opts !! k.
Proof.
  revert opts. induction keys as [|key keys IH]; intros opts; [done|].
  simpl. rewrite IH, lookup_insert.
  destruct (decide (key = k)) as [->|Hne].
  - rewrite (bool_decide_eq_true_2 (k ∈ k :: keys)) by (apply elem_of_cons; auto).
    by case_bool_decide.
  - destruct (decide (k ∈ keys)) as [Hin|Hin].
    + by rewrite !bool_decide_eq_true_2 by (try apply elem_of_cons; auto).
    + rewrite !bool_decide_eq_false_2; [done| |done].
      rewrite elem_of_cons. by intros [->|].
Qed.

Lemma interpret_ignored (js : JS.t) (pair : string * string) :
  JSLoader.ignored (JSLoader.interpret js pair) =
  JSLoader.ignored js || carries_ignore pair.
Proof.
  destruct pair as [name value].
  unfold JSLoader.interpret, JSLoader.ignored, carries_ignore. simpl.
  tag_cases name; rewrite ?orb_false_r; try done.
  - by destruct value.
  - rewrite set_keys_lookup. case_bool_decide; [|by rewrite orb_false_r].
    by rewrite orb_true_r.
  - rewrite set_keys_lookup. case_bool_decide; [|by rewrite orb_false_r].
    by rewrite orb_true_r.
Qed.

Lemma interpret_all_snoc props tag js :
  interpret_all (props ++ [tag]) js = JSLoader.interpret (interpret_all props js) tag.
Proof. unfold interpret_all. by rewrite fold_left_app. Qed.

Lemma interpret_all_id props js :
  JS.id (interpret_all props js) =
  match last (filter (λ pair, sets_id pair = true) props) with
  | Some tag => id_set_by tag
  | None => JS.id js
  end.
Proof.
  induction props as [|tag props IH] using rev_ind; [done|].
  rewrite interpret_all_snoc, interpret_id, filter_app, filter_cons, filter_nil.
  destruct (sets_id tag) eqn:Hp.
  - rewrite decide_True by done. by rewrite last_snoc.
  - rewrite decide_False by congruence. by rewrite app_nil_r.
Qed.

Lemma interpret_all_requiredModules props js :
  JS.requiredModules (interpret_all props js) =
  JS.requiredModules js ++ jsx_modules props.
Proof.
  induction props as [|tag props IH] using rev_ind.
  - by rewrite app_nil_r.
  - rewrite interpret_all_snoc, interpret_requiredModules, IH.
    unfold jsx_modules, jsx_values.
    by rewrite filter_app, fmap_app, filter_app, fmap_app, app_assoc.
Qed.

Lemma interpret_all_ignored props js :
  JSLoader.ignored (interpret_all props js) =
  JSLoader.ignored js || requests_ignore props.
Proof.
  induction props as [|tag props IH] using rev_ind.
  - by rewrite orb_false_r.
  - rewrite interpret_all_snoc, interpret_ignored, IH.
    unfold requests_ignore. rewrite existsb_app. simpl.
    by rewrite orb_false_r, orb_assoc.
Qed.

Lemma interpret_all_jsx props js :
  JS.isJSXEnabled (interpret_all props js) =
    (JS.isJSXEnabled js || bool_decide (jsx_values props ≠ [])) ∧
  JS.jsxDOMImplementor (interpret_all props js) =
    match last (jsx_values props) with
    | Some v => Some v
    | None => JS.jsxDOMImplementor js
    end.
Proof.
  induction props as [|tag props [IH1 IH2]] using rev_ind.
  - simpl. by rewrite orb_false_r.
  - rewrite interpret_all_snoc.
    destruct (interpret_jsx (interpret_all props js) tag) as [-> ->].
    rewrite IH1, IH2. unfold jsx_values.
    rewrite filter_app, fmap_app, filter_cons, filter_nil.
    destruct (String.eqb tag.1 "jsx") eqn:Hp.
    + rewrite decide_True by done. simpl. rewrite last_snoc, orb_true_r.
      rewrite bool_decide_eq_true_2, orb_true_r; [done|].
      by intros [_ ?]%app_eq_nil.
    + rewrite decide_False by congruence. simpl.
      by rewrite app_nil_r, orb_false_r.
Qed.

End TagInterpretation.

Section LastIdWins.

(** C1. The pairs are interpreted in source order, and the id of the
    descriptor is the one assigned by the last [provides],
    [providesModule] or [providesLegacy] tag: the first token of its
    value, after [legacy:] for [providesLegacy]. A [javelin] tag assigns
    no id, and without any of the three tags the id stays as it was. *)
Theorem last_id_tag_wins (env : Env) (js : JS.t) (sourceCode : string) :
  JS.id (JSLoader.parseDocblockOptions env js sourceCode) =
  match last (filter (λ tag, sets_id tag = true)
                     (JSLoader.docblock_props env sourceCode)) with
  | Some tag => id_set_by tag
  | None => JS.id js
  end.
Proof. apply interpret_all_id. Qed.

(** C1 as stated: the last tag among [provides], [providesModule],
    [providesLegacy] and [javelin] determines the id. After
    [provides a] and after [provides b] the same [javelin] tag leaves the
    ids [a] and [b]: no assignment of ids to tags makes the last of the
    four tags decide. *)
Lemma javelin_tag_sets_no_id :
  ¬ ∃ chosen : string * string → option string,
      ∀ env js sourceCode,
        let listed := filter (λ tag, listed_as_setting_id tag = true)
                             (JSLoader.docblock_props env sourceCode) in
        (2 ≤ length listed)%nat →
        JS.id (JSLoader.parseDocblockOptions env js sourceCode) =
        last listed ≫= chosen.
Proof.
  intros [chosen H].
  pose proof (H (fixture [("provides", "a"); ("javelin", "")] [] None "")
                (JS.new "a.js") "" ltac:(vm_compute; lia)) as Ha.
  pose proof (H (fixture [("provides", "b"); ("javelin", "")] [] None "")
                (JS.new "a.js") "" ltac:(vm_compute; lia)) as Hb.
  vm_compute in Ha, Hb. congruence.
Qed.

End LastIdWins.

(** ** The symbol fold *)

Section JavelinSymbols.
Import JSString.

Lemma elem_of_put (k k' : string) (o : list string) :
  k' ∈ Keys.put k o ↔ k' = k ∨ k' ∈ o.
Proof.
  unfold Keys.put, Keys.has. case_bool_decide as Hk.
  - split; [auto|]. by intros [->|].
  - rewrite elem_of_app, list_elem_of_singleton. tauto.
Qed.

Lemma elem_of_remove (k k' : string) (o : list string) :
  k' ∈ Keys.remove k o ↔ k' ≠ k ∧ k' ∈ o.
Proof. unfold Keys.remove. by rewrite list_elem_of_filter. Qed.

Lemma classify_line_overlap acc line :
  overlap_only_primitives acc →
  overlap_only_primitives (JSLoader.classify_line acc line).
Proof.
  intros Hacc. unfold JSLoader.classify_line.
  destruct (first (strip_line_number line)) as [c|]; [|done].
  destruct c as [[] [] [] [] [] [] [] []]; try exact Hacc.
  - (* '?' *)
    destruct (Keys.has _ _) eqn:Hhas; simpl; [done|].
    intros s. simpl. rewrite elem_of_put. intros Hd [->|Hr]; [|auto].
    unfold Keys.has in Hhas. by apply bool_decide_eq_false in Hhas.
  - (* '+' *)
    intros s. simpl. rewrite !elem_of_put, elem_of_remove.
    intros [->|Hd] [->|[Hne Hr]]; auto; done.
  - (* '*' *)
    intros s. simpl. rewrite !elem_of_put, elem_of_remove.
    intros [->|Hd] [->|[Hne Hr]]; auto; done.
Qed.

Lemma classify_overlap js output :
  overlap_only_primitives (JSLoader.classify js output).
Proof.
  unfold JSLoader.classify.
  generalize (split_on LF output). intros lines.
  induction lines as [|line lines IH] using rev_ind.
  - intros s Hs. by apply elem_of_nil in Hs.
  - rewrite fold_left_app. by apply classify_line_overlap.
Qed.

(** Apart from [JX.install] and [JX.behavior] no symbol is both defined
    and required. *)
Lemma defined_required_overlap js output s :
  s ∈ JS.definedJavelinSymbols (JSLoader.javelinSymbols js output) →
  s ∈ JS.requiredJavelinSymbols (JSLoader.javelinSymbols js output) →
  s = "JX.install" ∨ s = "JX.behavior".
Proof. apply (classify_overlap js output). Qed.

(** C2. The lines [+Widget], [?Other.method], [*menu] define [JX.Widget]
    and [javelin-behavior-menu], leave the id [javelin-behavior-menu], and
    require [JX.install], [JX.behavior] and [JX.method]: a reference
    contributes the text between its first and its second dot.
    [JX.Other] is required when the line is [?JX.Other.method]. *)
Theorem three_lines_symbols (js : JS.t) :
  let r := JSLoader.javelinSymbols js three_lines in
  let q := JSLoader.javelinSymbols js three_lines_qualified in
  JS.definedJavelinSymbols r = ["JX.Widget"; "javelin-behavior-menu"] ∧
  JS.requiredJavelinSymbols r = ["JX.install"; "JX.method"; "JX.behavior"] ∧
  JS.id r = Some "javelin-behavior-menu" ∧
  JS.definedJavelinSymbols q = ["JX.Widget"; "javelin-behavior-menu"] ∧
  JS.requiredJavelinSymbols q = ["JX.install"; "JX.Other"; "JX.behavior"] ∧
  JS.id q = Some "javelin-behavior-menu".
Proof. repeat split. Qed.

(** C2 as stated: [JX.Other] is not among the symbols that the three
    lines require. *)
Lemma three_lines_do_not_require_Other :
  "JX.Other" ∉ JS.requiredJavelinSymbols
                 (JSLoader.javelinSymbols (JS.new "a.js") three_lines).
Proof. intros H. apply (bool_decide_pack _) in H. by vm_compute in H. Qed.

(** C8. The required symbols are to exclude the defined ones. For the
    output [+install] the symbol [JX.install] is defined, and required by
    the definition itself: it is in both lists. *)
Theorem install_defined_and_required (js : JS.t) :
  let r := JSLoader.javelinSymbols js "+install" in
  JS.definedJavelinSymbols r = ["JX.install"] ∧
  JS.requiredJavelinSymbols r = ["JX.install"] ∧
  ¬ (JS.definedJavelinSymbols r ## JS.requiredJavelinSymbols r).
Proof.
  split_and!; [done..|].
  intros Hdisj. apply (Hdisj "JX.install"); apply list_elem_of_singleton; done.
Qed.

End JavelinSymbols.

(** ** Ingestion *)

Section Ingestion.
Import JSString.

Lemma tagged_ignored env path configuration sourceCode :
  JSLoader.ignored (tagged env path configuration sourceCode) =
  requests_ignore (JSLoader.docblock_props env sourceCode).
Proof.
  unfold tagged, JSLoader.parseDocblockOptions.
  rewrite (interpret_all_ignored _ (fresh path configuration)).
  by destruct configuration.
Qed.

Lemma loadFromSource_ignored this env path configuration sourceCode callback :
  requests_ignore (JSLoader.docblock_props env sourceCode) = true →
  JSLoader.loadFromSource this env path configuration sourceCode callback =
  callback None (tagged env path configuration sourceCode).
Proof.
  intros Hign. rewrite <- tagged_ignored with (path := path)
    (configuration := configuration) in Hign.
  unfold JSLoader.loadFromSource. fold (fresh path configuration).
  fold (tagged env path configuration sourceCode). by rewrite Hign.
Qed.

Lemma loadFromSource_completions this env path configuration sourceCode callback :
  requests_ignore (JSLoader.docblock_props env sourceCode) = false →
  let run := JSLoader.loadFromSource this env path configuration sourceCode callback in
  let extra := JSLoader.extractExtra this env
                 (prepared env path configuration sourceCode) sourceCode callback in
  completions_now run = completions_now extra ∧
  completions run = completions extra ∧
  uncaught run = uncaught extra.
Proof.
  intros Hign. rewrite <- tagged_ignored with (path := path)
    (configuration := configuration) in Hign.
  unfold JSLoader.loadFromSource, prepared. fold (fresh path configuration).
  fold (tagged env path configuration sourceCode). rewrite Hign.
  destruct (JS.isModule _); [|done].
  destruct configuration as [cfg|]; [|done].
  by destruct (negb _).
Qed.

Lemma extractExtra_completions options env js sourceCode :
  let extra := JSLoader.extractExtra (JSLoader.create options) env js sourceCode report in
  completions extra =
    match enriched options env js sourceCode with
    | Some js' => [(None, js')]
    | None => []
    end ∧
  uncaught extra =
    match enriched options env js sourceCode with
    | Some _ => 0
    | None => 1
    end.
Proof.
  unfold enriched, classified, javelin_on, networkSize_on, JSLoader.create.
  destruct (default _ options) as [size javelin toolPath]. simpl.
  destruct (javelin || truthy toolPath), size; simpl;
    unfold JSLoader.extractJavelinSymbols, JSLoader.extractNetworkSize,
      JSLoader._javelinSymbolsCallback;
    destruct (JS.isJavelin js); simpl;
    try destruct (zlib_deflate env sourceCode); done.
Qed.

(** A pipeline completes once, without an error, unless compression is
    on and reports an error. *)
Lemma loadFromSource_completes_once options env path configuration sourceCode :
  networkSize_on options = false ∨ is_Some (zlib_deflate env sourceCode) →
  ∃ js, completions (JSLoader.loadFromSource (JSLoader.create options) env path
                       configuration sourceCode report) = [(None, js)].
Proof.
  intros Hok.
  destruct (requests_ignore (JSLoader.docblock_props env sourceCode)) eqn:Hign.
  - rewrite loadFromSource_ignored by done. by eexists.
  - destruct (loadFromSource_completions (JSLoader.create options) env path
                configuration sourceCode report Hign) as (_ & -> & _).
    destruct (extractExtra_completions options env
                (prepared env path configuration sourceCode) sourceCode) as [-> _].
    unfold enriched. destruct Hok as [->|[len ->]]; [by eexists|].
    destruct (networkSize_on options); by eexists.
Qed.

(** C4. A loader with neither stage completes once. For a file whose
    docblock does not ask to be ignored it does so on the next tick, not in
    the turn of the call; for a file that asks to be ignored it does so in
    the turn of the call. *)
Theorem neither_stage_completes_on_next_tick
    options env path configuration sourceCode :
  networkSize_on options = false →
  javelin_on options = false →
  let run := JSLoader.loadFromSource (JSLoader.create options) env path
               configuration sourceCode report in
  if requests_ignore (JSLoader.docblock_props env sourceCode)
  then completions_now run = [(None, tagged env path configuration sourceCode)] ∧
       completions run = [(None, tagged env path configuration sourceCode)]
  else completions_now run = [] ∧
       completions run = [(None, prepared env path configuration sourceCode)].
Proof.
  intros Hsize Hjavelin. cbv zeta.
  destruct (requests_ignore (JSLoader.docblock_props env sourceCode)) eqn:Hign.
  - by rewrite loadFromSource_ignored.
  - destruct (loadFromSource_completions (JSLoader.create options) env path
                configuration sourceCode report Hign) as (-> & -> & _).
    unfold networkSize_on, javelin_on in *. unfold JSLoader.create.
    destruct (default _ options) as [size javelin toolPath]. simpl in *.
    by rewrite Hsize, Hjavelin.
Qed.

Lemma neither_stage_completes_on_next_tick_witness :
  let env := fixture [("providesModule", "Foo")] ["Bar"] None "" in
  networkSize_on None = false ∧ javelin_on None = false ∧
  completions_now (JSLoader.loadFromSource (JSLoader.create None) env "foo.js"
                     None "require('Bar')" report) = [].
Proof.
  split_and!; [reflexivity..|].
  apply (neither_stage_completes_on_next_tick None
           (fixture [("providesModule", "Foo")] ["Bar"] None "") "foo.js" None
           "require('Bar')" eq_refl eq_refl).
Defined.

(** C4 as stated: for a file with the tag [option ignore] the same loader
    calls back in the turn of the call. *)
Lemma ignored_file_completes_in_the_same_turn :
  let env := fixture [("option", "ignore")] [] None "" in
  networkSize_on None = false ∧ javelin_on None = false ∧
  completions_now (JSLoader.loadFromSource (JSLoader.create None) env "a.js"
                     None "" report) = [(None, tagged env "a.js" None "")].
Proof. split_and!; reflexivity. Qed.

(** C5. With an [option] or [options] tag that carries [ignore] the call
    does nothing but complete, in its own turn, with the descriptor as tag
    interpretation left it: no require extraction, no id resolution, no
    compression, no subprocess; [requiredModules] holds what the [jsx]
    tags put there. *)
Theorem ignored_file_short_circuits options env path configuration sourceCode :
  requests_ignore (JSLoader.docblock_props env sourceCode) = true →
  let run := JSLoader.loadFromSource (JSLoader.create options) env path
               configuration sourceCode report in
  let js := tagged env path configuration sourceCode in
  run = Complete None js Return ∧
  extractions run = [] ∧ enrichments run = 0 ∧
  JS.requiredModules js = jsx_modules (JSLoader.docblock_props env sourceCode).
Proof.
  intros Hign. cbv zeta. rewrite loadFromSource_ignored by done.
  split_and!; try done.
  unfold tagged, JSLoader.parseDocblockOptions.
  rewrite (interpret_all_requiredModules _ (fresh path configuration)).
  by destruct configuration.
Qed.

Lemma ignored_file_short_circuits_witness :
  let options := Some {| JSLoader.networkSize := true;
                         JSLoader.extractJavelin := true;
                         JSLoader.javelinsymbolsPath := None |} in
  let cfg := Some {| resolveID := λ p, Some p |} in
  let env := fixture [("javelin", ""); ("options", "x ignore")] ["Bar"] (Some 7) "+A" in
  requests_ignore (JSLoader.docblock_props env "require('Bar')") = true ∧
  extractions (JSLoader.loadFromSource (JSLoader.create options) env "a.js" cfg
                 "require('Bar')" report) = [] ∧
  JS.requiredModules (tagged env "a.js" cfg "require('Bar')") = [].
Proof.
  split; [reflexivity|].
  pose proof (ignored_file_short_circuits
    (Some {| JSLoader.networkSize := true; JSLoader.extractJavelin := true;
             JSLoader.javelinsymbolsPath := None |})
    (fixture [("javelin", ""); ("options", "x ignore")] ["Bar"] (Some 7) "+A")
    "a.js" (Some {| resolveID := λ p, Some p |}) "require('Bar')" eq_refl)
    as (_ & Hext & _ & Hreq).
  split; [exact Hext | exact Hreq].
Defined.

(** C6. Every ingestion is to complete exactly once. When compression is
    on and reports an error, [buffer] is undefined, [buffer.length] throws
    in the callback of [zlib.deflate], and the completion callback is
    never called. *)
Theorem deflate_error_never_completes options env path configuration sourceCode :
  networkSize_on options = true →
  zlib_deflate env sourceCode = None →
  requests_ignore (JSLoader.docblock_props env sourceCode) = false →
  let run := JSLoader.loadFromSource (JSLoader.create options) env path
               configuration sourceCode report in
  completions run = [] ∧ uncaught run = 1.
Proof.
  intros Hsize Herr Hign. cbv zeta.
  destruct (loadFromSource_completions (JSLoader.create options) env path
              configuration sourceCode report Hign) as (_ & -> & ->).
  destruct (extractExtra_completions options env
              (prepared env path configuration sourceCode) sourceCode) as [-> ->].
  unfold enriched. by rewrite Hsize, Herr.
Qed.

Lemma deflate_error_never_completes_witness :
  let options := Some {| JSLoader.networkSize := true;
                         JSLoader.extractJavelin := false;
                         JSLoader.javelinsymbolsPath := None |} in
  let env := fixture [] [] None "" in
  networkSize_on options = true ∧ zlib_deflate env "var a;" = None ∧
  requests_ignore (JSLoader.docblock_props env "var a;") = false ∧
  completions (JSLoader.loadFromSource (JSLoader.create options) env "a.js"
                 None "var a;" report) = [].
Proof.
  split_and!; [reflexivity..|].
  apply (deflate_error_never_completes
    (Some {| JSLoader.networkSize := true; JSLoader.extractJavelin := false;
             JSLoader.javelinsymbolsPath := None |})
    (fixture [] [] None "") "a.js" None "var a;"); reflexivity.
Defined.

(** C9. Without tag/value pairs every descriptor the call completes with
    has no required legacy components, no required CSS and no options,
    and is a module exactly when a configuration was given; its
    [requiredModules] are the extracted require calls when a
    configuration was given, and none otherwise. The call completes
    once, unless compression is on and reports an error. *)
Theorem no_docblock_descriptor options env path configuration sourceCode :
  JSLoader.docblock_props env sourceCode = [] →
  let run := JSLoader.loadFromSource (JSLoader.create options) env path
               configuration sourceCode report in
  (∀ err js, (err, js) ∈ completions run →
     JS.requiredLegacyComponents js = [] ∧ JS.requiredCSS js = [] ∧
     JS.options js = ∅ ∧
     (JS.isModule js = true ↔ is_Some configuration) ∧
     JS.requiredModules js =
       match configuration with
       | Some _ => Some <$> extractRequireCalls env sourceCode
       | None => []
       end) ∧
  (networkSize_on options = false ∨ is_Some (zlib_deflate env sourceCode) →
   List.length (completions run) = 1).
Proof.
  intros Hprops. cbv zeta. split.
  - assert (requests_ignore (JSLoader.docblock_props env sourceCode) = false) as Hign
      by (by rewrite Hprops).
    destruct (loadFromSource_completions (JSLoader.create options) env path
                configuration sourceCode report Hign) as (_ & -> & _).
    destruct (extractExtra_completions options env
                (prepared env path configuration sourceCode) sourceCode) as [-> _].
    assert (∀ js, enriched options env (prepared env path configuration sourceCode)
                    sourceCode = Some js →
              ∃ size, js = JS.set_networkSize size
                             (prepared env path configuration sourceCode)) as Hshape.
    { unfold enriched, classified, prepared, tagged, JSLoader.parseDocblockOptions.
      rewrite Hprops. intros js.
      replace (JS.isJavelin _) with false by (by destruct configuration).
      rewrite andb_false_r.
      destruct (networkSize_on options).
      - destruct (zlib_deflate env sourceCode) as [len|]; [|done].
        intros [= <-]. by eexists.
      - intros [= <-]. exists None. by destruct configuration. }
    intros err js Hin.
    destruct (enriched _ _ _ _) as [js'|] eqn:Hjs'; [|by apply elem_of_nil in Hin].
    apply list_elem_of_singleton in Hin as [= -> ->].
    destruct (Hshape js' eq_refl) as [size ->].
    unfold prepared, tagged, JSLoader.parseDocblockOptions. rewrite Hprops.
    destruct configuration as [cfg|]; simpl; by split_and!.
  - intros Hok.
    destruct (loadFromSource_completes_once options env path configuration
                sourceCode Hok) as [js ->]. done.
Qed.

Lemma no_docblock_descriptor_witness :
  let env := fixture [] ["Bar"] (Some 12) "" in
  let cfg := Some {| resolveID := λ p, Some ("lib/" +:+ p) |} in
  JSLoader.docblock_props env "require('Bar')" = [] ∧
  List.length (completions (JSLoader.loadFromSource (JSLoader.create None) env "a.js" cfg
                         "require('Bar')" report)) = 1.
Proof.
  split; [reflexivity|].
  apply (no_docblock_descriptor None (fixture [] ["Bar"] (Some 12) "") "a.js"
           (Some {| resolveID := λ p, Some ("lib/" +:+ p) |}) "require('Bar')" eq_refl).
  left. reflexivity.
Defined.

(** C9 as stated: with a configuration and no docblock, a require call in
    the source is in [requiredModules], which is not empty. *)
Lemma require_calls_without_docblock :
  let env := fixture [] ["Bar"] None "" in
  let cfg := Some {| resolveID := λ p, Some ("lib/" +:+ p) |} in
  JSLoader.docblock_props env "require('Bar')" = [] ∧
  (JS.requiredModules ∘ snd) <$>
    completions (JSLoader.loadFromSource (JSLoader.create None) env "a.js" cfg
                   "require('Bar')" report) = [[Some "Bar"]].
Proof. split; reflexivity. Qed.

(** C10. When the docblock has a [jsx] tag with a value that is not empty
    and an [option] tag with [ignore], the call completes at once with the
    descriptor exactly as tag interpretation left it: JSX is enabled, the
    value is among [requiredModules], and [jsxDOMImplementor] is the value
    of the last [jsx] tag, which is this value when no [jsx] tag has
    another. *)
Theorem ignored_file_keeps_jsx options env path configuration sourceCode value :
  let props := JSLoader.docblock_props env sourceCode in
  requests_ignore props = true →
  ("jsx", value) ∈ props →
  value ≠ "" →
  ∃ js,
    JSLoader.loadFromSource (JSLoader.create options) env path configuration
      sourceCode report = Complete None js Return ∧
    js = JSLoader.parseDocblockOptions env (fresh path configuration) sourceCode ∧
    JS.isJSXEnabled js = true ∧
    Some value ∈ JS.requiredModules js ∧
    JS.jsxDOMImplementor js = last (jsx_values props) ∧
    ((∀ other, ("jsx", other) ∈ props → other = value) →
     JS.jsxDOMImplementor js = Some value).
Proof.
  intros props Hign Hjsx Hvalue.
  exists (tagged env path configuration sourceCode).
  assert (value ∈ jsx_values props) as Hin.
  { unfold jsx_values. apply list_elem_of_fmap. exists ("jsx", value).
    split; [done|]. by apply list_elem_of_filter. }
  destruct (interpret_all_jsx props (fresh path configuration)) as [Hon Himpl].
  assert (JS.jsxDOMImplementor (tagged env path configuration sourceCode)
          = last (jsx_values props)) as Hlast.
  { unfold tagged, JSLoader.parseDocblockOptions. fold props.
    unfold interpret_all in Himpl. rewrite Himpl.
    destruct (last (jsx_values props)) eqn:Hl; [done|].
    apply last_None in Hl. rewrite Hl in Hin. by apply elem_of_nil in Hin. }
  split_and!.
  - by apply loadFromSource_ignored.
  - done.
  - unfold tagged, JSLoader.parseDocblockOptions. fold props.
    unfold interpret_all in Hon. rewrite Hon.
    rewrite bool_decide_eq_true_2, orb_true_r; [done|].
    intros Hnil. rewrite Hnil in Hin. by apply elem_of_nil in Hin.
  - unfold tagged, JSLoader.parseDocblockOptions. fold props.
    pose proof (interpret_all_requiredModules props (fresh path configuration)) as Hrm.
    unfold interpret_all in Hrm. rewrite Hrm.
    apply elem_of_app. right. unfold jsx_modules.
    apply list_elem_of_fmap. exists value. split; [done|].
    by apply list_elem_of_filter.
  - done.
  - intros Honly. rewrite Hlast.
    destruct (last (jsx_values props)) as [other|] eqn:Hl.
    + f_equal. apply Honly. apply last_Some_elem_of in Hl.
      unfold jsx_values in Hl. apply list_elem_of_fmap in Hl as ([name v] & -> & Hf).
      apply list_elem_of_filter in Hf as [Hname Hf]. simpl in *.
      by apply String.eqb_eq in Hname as ->.
    + apply last_None in Hl. rewrite Hl in Hin. by apply elem_of_nil in Hin.
Qed.

Lemma ignored_file_keeps_jsx_witness :
  let env := fixture [("jsx", "React.DOM"); ("option", "ignore")] ["Bar"] None "" in
  requests_ignore (JSLoader.docblock_props env "require('Bar')") = true ∧
  ("jsx", "React.DOM") ∈ JSLoader.docblock_props env "require('Bar')" ∧
  "React.DOM" ≠ "" ∧
  ∃ js, JSLoader.loadFromSource (JSLoader.create None) env "a.js" None
          "require('Bar')" report = Complete None js Return ∧
        JS.jsxDOMImplementor js = Some "React.DOM" ∧
        JS.requiredModules js = [Some "React.DOM"].
Proof.
  split; [reflexivity|]. split; [apply list_elem_of_here|]. split; [discriminate|].
  destruct (ignored_file_keeps_jsx None
    (fixture [("jsx", "React.DOM"); ("option", "ignore")] ["Bar"] None "")
    "a.js" None "require('Bar')" "React.DOM" eq_refl
    ltac:(apply list_elem_of_here) ltac:(discriminate))
    as (js & Hrun & -> & _).
  eexists. split; [exact Hrun|]. split; reflexivity.
Defined.

End Ingestion.

(** ** The post-process pass *)

Section PostProcess.
Import JSString.

Lemma resolve_from_strings map rpath fuel i (required : list (option string)) :
  (i ≤ List.length required)%nat → (List.length required < i + fuel)%nat →
  Forall is_Some (drop i required) →
  JSLoader.resolve_from map rpath fuel i required =
  (take i required ++ ((λ entry, entry ≫= resolved map rpath) <$> drop i required),
   JSLoader.Finished).
Proof.
  revert i required. induction fuel as [|fuel IH]; intros i required Hi Hfuel Hstr;
    [lia|].
  cbn [JSLoader.resolve_from].
  destruct (required !! i) as [entry|] eqn:Hentry.
  - pose proof (lookup_lt_Some _ _ _ Hentry) as Hlt.
    rewrite (drop_S _ _ _ Hentry) in Hstr |- *.
    apply Forall_cons in Hstr as [[req ->] Hstr].
    assert (∀ e, JSLoader.resolve_from map rpath fuel (S i) (<[i := e]> required) =
                 (take i required ++ e ::
                    ((λ entry, entry ≫= resolved map rpath) <$> drop (S i) required),
                  JSLoader.Finished)) as Hstep.
    { intros e. rewrite IH.
      - rewrite drop_insert_lt by lia.
        rewrite (take_S_r _ _ e) by (by apply list_lookup_insert_eq).
        rewrite take_insert_ge by lia. by rewrite <- app_assoc.
      - rewrite length_insert. lia.
      - rewrite length_insert. lia.
      - by rewrite drop_insert_lt by lia. }
    rewrite fmap_cons.
    set (rest := (λ entry, entry ≫= resolved map rpath) <$> drop (S i) required) in *.
    simpl. unfold resolved.
    destruct (starts_with_dot req).
    + destruct (JSLoader.getResourceByPath map _) as [resource|]; [apply Hstep|].
      destruct (JSLoader.getResourceByPath map _) as [resource|]; [apply Hstep|].
      rewrite <- (list_insert_id required i (Some req)) at 1 by done. apply Hstep.
    + rewrite <- (list_insert_id required i (Some req)) at 1 by done. apply Hstep.
  - apply lookup_ge_None in Hentry.
    rewrite take_ge, drop_ge by lia. by rewrite app_nil_r.
Qed.

Lemma resolve_strings map r :
  Forall is_Some (JS.requiredModules r) →
  JSLoader.resolve map r = (rewritten map r, JSLoader.Finished).
Proof.
  intros Hstr. unfold JSLoader.resolve.
  rewrite resolve_from_strings; [done | lia | lia | done].
Qed.

Lemma resolve_each_strings map resources :
  Forall (λ r, Forall is_Some (JS.requiredModules r)) resources →
  JSLoader.resolve_each map resources = (rewritten map <$> resources, JSLoader.Finished).
Proof.
  induction 1 as [|r resources Hr _ IH]; [done|].
  cbn [JSLoader.resolve_each]. by rewrite resolve_strings, IH.
Qed.

(** C3. For resources whose required modules are strings the pass throws
    nothing, schedules its callback, and leaves every resource as it was
    but for [requiredModules], where every entry is resolved in its place:
    one that begins with a dot is looked up under the directory of its
    resource with [.js], then with [/index.js], and replaced by the id of
    the resource found, or left as it is. With [foo/index.js] of id [Foo],
    [./foo] in [bar.js] becomes [Foo], and [./missing] stays. *)
Theorem postProcess_resolves :
  (∀ map resources callback,
     Forall (λ r, Forall is_Some (JS.requiredModules r)) resources →
     JSLoader.postProcess map resources callback =
     (rewritten map <$> resources, NextTick callback Return)) ∧
  JSLoader.postProcess (JSLoader.resourceMap [foo; bar "./foo"])
    [foo; bar "./foo"] Return = ([foo; bar "Foo"], NextTick Return Return) ∧
  JSLoader.postProcess (JSLoader.resourceMap [foo; bar "./missing"])
    [foo; bar "./missing"] Return = ([foo; bar "./missing"], NextTick Return Return).
Proof.
  split_and!; [|reflexivity..].
  intros map resources callback Hstr. unfold JSLoader.postProcess.
  by rewrite resolve_each_strings.
Qed.

Lemma postProcess_resolves_witness :
  let resources := [foo; bar "./foo"] in
  Forall (λ r, Forall is_Some (JS.requiredModules r)) resources ∧
  JS.requiredModules <$>
    (JSLoader.postProcess (JSLoader.resourceMap resources) resources Return).1 =
  [[]; [Some "Foo"]].
Proof.
  assert (Forall (λ r, Forall is_Some (JS.requiredModules r)) [foo; bar "./foo"]) as Hstr.
  { repeat constructor. by eexists. }
  split; [exact Hstr|].
  rewrite (proj1 postProcess_resolves _ _ Return Hstr). reflexivity.
Defined.

End PostProcess.

(** * Further properties *)

(** ** Extensions and paths *)

Section Extensions.

(** X1. For a path that is not two code units long, [matchPath] holds
    exactly when the path ends in [.js]. *)
Theorem matchPath_ends_in_js (filePath : string) :
  String.length filePath ≠ 2 →
  matchPath filePath = true ↔ ∃ stem, filePath = stem +:+ ".js".
Proof.
  intros Hlen. rewrite matchPath_iff. split; [|by left].
  by intros [?|?].
Qed.

Lemma matchPath_ends_in_js_witness :
  String.length "lib/Widget.jsx" ≠ 2 ∧
  (matchPath "lib/Widget.jsx" = true ↔ ∃ stem, "lib/Widget.jsx" = stem +:+ ".js").
Proof.
  split; [discriminate|].
  apply (matchPath_ends_in_js "lib/Widget.jsx"). discriminate.
Defined.

(** X2. Every path made of a stem and one of the extensions that
    [getExtensions] lists is matched by [matchPath]. *)
Theorem getExtensions_matched (ext stem : string) :
  ext ∈ JSLoader.getExtensions → matchPath (stem +:+ ext) = true.
Proof.
  intros ->%list_elem_of_singleton. apply matchPath_iff. left. by exists stem.
Qed.

Lemma getExtensions_matched_witness :
  ".js" ∈ JSLoader.getExtensions ∧ matchPath ("lib/index" +:+ ".js") = true.
Proof.
  split; [apply list_elem_of_here|].
  apply (getExtensions_matched ".js" "lib/index"). apply list_elem_of_here.
Defined.

End Extensions.

(** ** More on the symbol fold *)

Section SymbolFold.
Import JSString.

(** The cases of the [switch] on the first code unit of a line. *)
Ltac line_cases line :=
  unfold JSLoader.classify_line, definer, defined_name, installs;
  destruct (first (strip_line_number line)) as [c|];
  [destruct c as [[] [] [] [] [] [] [] []]|]; simpl;
  try match goal with
      | |- context [Keys.has ?k ?o] => destruct (Keys.has k o) eqn:?; simpl
      end.

Lemma classify_fold_snoc lines line acc :
  fold_left JSLoader.classify_line (lines ++ [line]) acc =
  JSLoader.classify_line (fold_left JSLoader.classify_line lines acc) line.
Proof. by rewrite fold_left_app. Qed.

Lemma classify_line_id acc line :
  JS.id (JSLoader.descriptor (JSLoader.classify_line acc line)) =
  if definer line then Some (defined_name line)
  else JS.id (JSLoader.descriptor acc).
Proof. line_cases line; done. Qed.

Lemma classify_line_frame acc line js :
  JSLoader.descriptor acc = JS.set_id (JS.id (JSLoader.descriptor acc)) js →
  JSLoader.descriptor (JSLoader.classify_line acc line) =
  JS.set_id (JS.id (JSLoader.descriptor (JSLoader.classify_line acc line))) js.
Proof. intros Hacc. line_cases line; try done; by rewrite Hacc. Qed.

Lemma NoDup_put k o : NoDup o → NoDup (Keys.put k o).
Proof.
  intros Ho. unfold Keys.put, Keys.has. case_bool_decide as Hk; [done|].
  apply NoDup_app. split_and!; [done| |apply NoDup_singleton].
  by intros x Hx ->%list_elem_of_singleton.
Qed.

Lemma NoDup_remove k o : NoDup o → NoDup (Keys.remove k o).
Proof. apply NoDup_filter. Qed.

Lemma classify_line_NoDup acc line :
  NoDup (JSLoader.defines acc) ∧ NoDup (JSLoader.requires acc) →
  NoDup (JSLoader.defines (JSLoader.classify_line acc line)) ∧
  NoDup (JSLoader.requires (JSLoader.classify_line acc line)).
Proof.
  intros [Hd Hr].
  line_cases line; try done; auto using NoDup_put, NoDup_remove.
Qed.

Lemma classify_line_defines acc line s :
  s ∈ JSLoader.defines (JSLoader.classify_line acc line) ↔
  s ∈ JSLoader.defines acc ∨ (definer line = true ∧ defined_name line = s).
Proof.
  line_cases line; rewrite ?elem_of_put; try (by intuition congruence).
Qed.

Lemma behavior_is_not_install (rest : string) :
  "javelin-behavior-" +:+ rest ≠ "JX.install".
Proof. intros H. apply (f_equal first) in H. discriminate. Qed.

Lemma classify_line_install acc line :
  "JX.install" ∈ JSLoader.requires acc ∨ installs line = true →
  "JX.install" ∈ JSLoader.requires (JSLoader.classify_line acc line).
Proof.
  line_cases line; rewrite ?elem_of_put, ?elem_of_remove;
    try (by intuition congruence).
  intros [Hin|[=]]. right. split; [|done].
  intros Heq. by apply (behavior_is_not_install _ (eq_sym Heq)).
Qed.

(** X3. The symbol stage leaves as id the symbol of the last line that
    defines one, an installed unit or a behavior, and the id it found when
    no line defines a symbol. *)
Theorem last_definer_names_id (js : JS.t) (output : string) :
  JS.id (JSLoader.javelinSymbols js output) =
  match last (filter (λ line, definer line = true) (split_on LF output)) with
  | Some line => Some (defined_name line)
  | None => JS.id js
  end.
Proof.
  unfold JSLoader.javelinSymbols, JSLoader.classify. simpl.
  generalize (split_on LF output). intros lines.
  induction lines as [|line lines IH] using rev_ind; [done|].
  rewrite classify_fold_snoc, classify_line_id, filter_app, filter_cons, filter_nil.
  destruct (definer line) eqn:Hline.
  - rewrite decide_True by done. by rewrite last_snoc.
  - rewrite decide_False by congruence. by rewrite app_nil_r.
Qed.

(** X4. The symbol stage writes the id and the two symbol lists of the
    descriptor and nothing else: the result is the descriptor it was given
    with these three fields replaced. *)
Theorem javelinSymbols_frame (js : JS.t) (output : string) :
  let r := JSLoader.javelinSymbols js output in
  r = JS.set_requiredJavelinSymbols (JS.requiredJavelinSymbols r)
        (JS.set_definedJavelinSymbols (JS.definedJavelinSymbols r)
           (JS.set_id (JS.id r) js)).
Proof.
  cbv zeta. unfold JSLoader.javelinSymbols, JSLoader.classify.
  assert (∀ lines acc,
            JSLoader.descriptor acc = JS.set_id (JS.id (JSLoader.descriptor acc)) js →
            JSLoader.descriptor (fold_left JSLoader.classify_line lines acc) =
            JS.set_id (JS.id (JSLoader.descriptor
                                (fold_left JSLoader.classify_line lines acc))) js)
    as Hframe.
  { intros lines acc Hacc.
    induction lines as [|line lines IH] using rev_ind; [done|].
    rewrite classify_fold_snoc. by apply classify_line_frame. }
  rewrite (Hframe (split_on LF output)
             {| JSLoader.defines := []; JSLoader.requires := [];
                JSLoader.descriptor := js |}) at 1; [done|].
  by destruct js.
Qed.

(** X5. Neither list of symbols names a symbol twice. *)
Theorem symbols_listed_once (js : JS.t) (output : string) :
  NoDup (JS.definedJavelinSymbols (JSLoader.javelinSymbols js output)) ∧
  NoDup (JS.requiredJavelinSymbols (JSLoader.javelinSymbols js output)).
Proof.
  unfold JSLoader.javelinSymbols, JSLoader.classify. simpl.
  generalize (split_on LF output). intros lines.
  induction lines as [|line lines IH] using rev_ind.
  - split; apply NoDup_nil_2.
  - rewrite classify_fold_snoc. by apply classify_line_NoDup.
Qed.

(** X6. A symbol that is both defined and required is [JX.install] or
    [JX.behavior]: every other symbol that a file defines is kept out of
    the symbols it requires, wherever the reference stands. *)
Theorem defined_symbols_not_required (js : JS.t) (output s : string) :
  s ∈ JS.definedJavelinSymbols (JSLoader.javelinSymbols js output) →
  s ∈ JS.requiredJavelinSymbols (JSLoader.javelinSymbols js output) →
  s = "JX.install" ∨ s = "JX.behavior".
Proof. apply (classify_overlap js output). Qed.

Lemma defined_symbols_not_required_witness :
  let r := JSLoader.javelinSymbols (JS.new "a.js")
             ("?JX.Menu.open" +:+ nl +:+ "+Menu" +:+ nl +:+ "+install") in
  "JX.install" ∈ JS.definedJavelinSymbols r ∧
  "JX.install" ∈ JS.requiredJavelinSymbols r ∧
  ("JX.install" = "JX.install" ∨ "JX.install" = "JX.behavior").
Proof.
  assert ("JX.install" ∈ ["JX.Menu"; "JX.install"]) as Hd
    by (apply list_elem_of_further, list_elem_of_here).
  assert ("JX.install" ∈ ["JX.install"]) as Hr by apply list_elem_of_here.
  split; [exact Hd|]. split; [exact Hr|].
  exact (defined_symbols_not_required (JS.new "a.js")
           ("?JX.Menu.open" +:+ nl +:+ "+Menu" +:+ nl +:+ "+install")
           "JX.install" Hd Hr).
Defined.

(** X7. The defined symbols are exactly the symbols of the lines that
    define one. *)
Theorem defined_symbols_are_the_definers (js : JS.t) (output s : string) :
  s ∈ JS.definedJavelinSymbols (JSLoader.javelinSymbols js output) ↔
  ∃ line, line ∈ split_on LF output ∧ definer line = true ∧ defined_name line = s.
Proof.
  unfold JSLoader.javelinSymbols, JSLoader.classify. simpl.
  generalize (split_on LF output). intros lines.
  induction lines as [|line lines IH] using rev_ind.
  - simpl. split; [by intros ?%elem_of_nil|].
    by intros (line & ?%elem_of_nil & _).
  - rewrite classify_fold_snoc, classify_line_defines, IH. split.
    + intros [(l & Hl & Hdef)|Hline].
      * exists l. split; [|done]. apply elem_of_app. by left.
      * exists line. split; [|done]. apply elem_of_app. right.
        apply list_elem_of_here.
    + intros (l & [Hl| ->%list_elem_of_singleton]%elem_of_app & Hdef); [|by right].
      left. by exists l.
Qed.

(** X8. A file that installs a unit requires [JX.install], whatever lines
    follow. *)
Theorem installer_is_required (js : JS.t) (output line : string) :
  line ∈ split_on LF output → installs line = true →
  "JX.install" ∈ JS.requiredJavelinSymbols (JSLoader.javelinSymbols js output).
Proof.
  unfold JSLoader.javelinSymbols, JSLoader.classify. simpl.
  generalize (split_on LF output). intros lines.
  induction lines as [|l lines IH] using rev_ind; [by intros ?%elem_of_nil|].
  intros [Hin| ->%list_elem_of_singleton]%elem_of_app Hline;
    rewrite classify_fold_snoc; apply classify_line_install; auto.
Qed.

Lemma installer_is_required_witness :
  let output := "+Menu:3" +:+ nl +:+ "*menu-open:9" +:+ nl +:+ "+install" in
  "+Menu:3" ∈ split_on LF output ∧ installs "+Menu:3" = true ∧
  "JX.install" ∈ JS.requiredJavelinSymbols
                   (JSLoader.javelinSymbols (JS.new "a.js") output).
Proof.
  assert ("+Menu:3" ∈ ["+Menu:3"; "*menu-open:9"; "+install"]) as Hin
    by apply list_elem_of_here.
  split; [exact Hin|]. split; [reflexivity|].
  exact (installer_is_required (JS.new "a.js")
           ("+Menu:3" +:+ nl +:+ "*menu-open:9" +:+ nl +:+ "+install")
           "+Menu:3" Hin eq_refl).
Defined.

Lemma all_digits_colon (s digits : string) :
  all_digits (s +:+ ":" +:+ digits) = false.
Proof.
  induction s as [|c s IH]; [done|].
  rewrite append_cons. simpl. rewrite IH. apply andb_false_r.
Qed.

Lemma strip_line_number_suffix (s digits : string) :
  digits ≠ "" → all_digits digits = true →
  strip_line_number (s +:+ ":" +:+ digits) = s.
Proof.
  intros Hne Hdigits. induction s as [|c s IH].
  - rewrite append_nil, append_cons, append_nil. simpl.
    rewrite Hdigits. by destruct digits.
  - rewrite append_cons. simpl.
    rewrite all_digits_colon, IH, andb_false_r. done.
Qed.

(** X9. The line number that the tool appends to a line, a colon and
    digits, does not change what the line contributes. *)
Theorem line_number_is_cut (acc : JSLoader.Symbols) (line digits : string) :
  digits ≠ "" → all_digits digits = true → strip_line_number line = line →
  JSLoader.classify_line acc (line +:+ ":" +:+ digits) =
  JSLoader.classify_line acc line.
Proof.
  intros Hne Hdigits Hline. unfold JSLoader.classify_line.
  by rewrite strip_line_number_suffix, Hline.
Qed.

Lemma line_number_is_cut_witness :
  let acc := {| JSLoader.defines := []; JSLoader.requires := ["JX.Menu"];
                JSLoader.descriptor := JS.new "a.js" |} in
  "12" ≠ "" ∧ all_digits "12" = true ∧ strip_line_number "+Menu" = "+Menu" ∧
  JSLoader.classify_line acc ("+Menu" +:+ ":" +:+ "12") =
  JSLoader.classify_line acc "+Menu".
Proof.
  split; [discriminate|]. split; [reflexivity|]. split; [reflexivity|].
  apply (line_number_is_cut _ "+Menu" "12"); [discriminate|reflexivity..].
Defined.

End SymbolFold.

(** ** More on tag interpretation *)

Section TagEffects.
Import JSString.

(** Case analysis on the tag name, one literal after the other. *)
Ltac name_cases name :=
  repeat match goal with
  | |- context [String.eqb name ?lit] =>
      destruct (String.eqb_spec name lit) as [->|?]; simpl
  end.

(** One pair of the docblock, by the cases of the [switch]. *)
Ltac pair_cases pair :=
  destruct pair as [name value]; unfold JSLoader.interpret; simpl;
  name_cases name; rewrite ?orb_false_r, ?orb_true_r, ?app_nil_r;
  try done; try (by destruct value).

Lemma tokens_of_snoc wanted props pair :
  tokens_of wanted (props ++ [pair]) =
  tokens_of wanted props ++ (if wanted pair.1 then split_ws pair.2 else []).
Proof.
  unfold tokens_of. rewrite fmap_app, concat_app. simpl. by rewrite app_nil_r.
Qed.

Lemma has_tag_snoc name props pair :
  has_tag name (props ++ [pair]) = has_tag name props || String.eqb pair.1 name.
Proof. unfold has_tag. rewrite existsb_app. simpl. by rewrite orb_false_r. Qed.

Lemma interpret_lists (js : JS.t) (pair : string * string) :
  JS.requiredCSS (JSLoader.interpret js pair) =
    JS.requiredCSS js ++ (if String.eqb pair.1 "css" then split_ws pair.2 else []) ∧
  JS.requiredLegacyComponents (JSLoader.interpret js pair) =
    JS.requiredLegacyComponents js ++
    (if String.eqb pair.1 "requires" then split_ws pair.2 else []).
Proof. split; pair_cases pair. Qed.


Lemma interpret_unknown (js : JS.t) (pair : string * string) :
  known_tag pair.1 = false → JSLoader.interpret js pair = js.
Proof.
  unfold known_tag. pair_cases pair.
Qed.

Lemma interpret_flags (js : JS.t) (pair : string * string) :
  let js' := JSLoader.interpret js pair in
  JS.isLegacy js' = (JS.isLegacy js || String.eqb pair.1 "providesLegacy") ∧
  JS.isRunWhenReady js' =
    (JS.isRunWhenReady js || String.eqb pair.1 "providesLegacy"
     || String.eqb pair.1 "javelin" || String.eqb pair.1 "runWhenReady_DEPRECATED") ∧
  JS.isJavelin js' = (JS.isJavelin js || String.eqb pair.1 "javelin") ∧
  JS.isPolyfill js' = (JS.isPolyfill js || String.eqb pair.1 "polyfill") ∧
  JS.isPermanent js' = (JS.isPermanent js || String.eqb pair.1 "permanent") ∧
  JS.isNopackage js' = (JS.isNopackage js || String.eqb pair.1 "nopackage").
Proof. cbv zeta. split_and!; pair_cases pair. Qed.

Lemma interpret_isModule (js : JS.t) (pair : string * string) :
  JS.isModule (JSLoader.interpret js pair) =
  if sets_isModule pair then negb (String.eqb pair.1 "provides") else JS.isModule js.
Proof. unfold sets_isModule. pair_cases pair. Qed.

Lemma interpret_frame (js : JS.t) (pair : string * string) :
  let js' := JSLoader.interpret js pair in
  JS.path js' = JS.path js ∧ JS.networkSize js' = JS.networkSize js ∧
  JS.definedJavelinSymbols js' = JS.definedJavelinSymbols js ∧
  JS.requiredJavelinSymbols js' = JS.requiredJavelinSymbols js.
Proof. cbv zeta. split_and!; pair_cases pair. Qed.

(** X10. The tokens of the [css] tags are appended to [requiredCSS], and
    the tokens of the [requires] tags to [requiredLegacyComponents], tag
    after tag in source order and token after token, behind what the lists
    held; nothing else reaches these lists. *)
Theorem tag_tokens_accumulate (env : Env) (js : JS.t) (sourceCode : string) :
  let props := JSLoader.docblock_props env sourceCode in
  let js' := JSLoader.parseDocblockOptions env js sourceCode in
  JS.requiredCSS js' =
    JS.requiredCSS js ++ tokens_of (λ name, String.eqb name "css") props ∧
  JS.requiredLegacyComponents js' =
    JS.requiredLegacyComponents js ++
    tokens_of (λ name, String.eqb name "requires") props.
Proof.
  cbv zeta. unfold JSLoader.parseDocblockOptions.
  generalize (JSLoader.docblock_props env sourceCode). intros props.
  induction props as [|tag props [IHcss IHreq]] using rev_ind.
  - by rewrite !app_nil_r.
  - rewrite fold_left_app. simpl.
    destruct (interpret_lists (fold_left JSLoader.interpret props js) tag) as [-> ->].
    rewrite IHcss, IHreq, !tokens_of_snoc. by rewrite !app_assoc.
Qed.


(** X12. Pairs with a tag name that has no case in the [switch] have no
    effect, wherever they stand: the docblock is interpreted as if it held
    the pairs with known names only. *)
Theorem unknown_tags_ignored (env : Env) (js : JS.t) (sourceCode : string) :
  JSLoader.parseDocblockOptions env js sourceCode =
  fold_left JSLoader.interpret
    (filter (λ pair, known_tag pair.1 = true) (JSLoader.docblock_props env sourceCode))
    js.
Proof.
  unfold JSLoader.parseDocblockOptions.
  generalize (JSLoader.docblock_props env sourceCode). intros props. revert js.
  induction props as [|tag props IH]; intros js; [done|].
  rewrite filter_cons. simpl. destruct (known_tag tag.1) eqn:Hknown.
  - rewrite decide_True by done. simpl. apply IH.
  - rewrite decide_False by congruence. by rewrite interpret_unknown.
Qed.

(** X13. Tag interpretation sets flags and clears none of these: a flag is
    set afterwards exactly when it was set before or a tag that sets it is
    present, [providesLegacy] for [isLegacy], [providesLegacy], [javelin] or
    [runWhenReady_DEPRECATED] for [isRunWhenReady], and the tag of its name
    for [isJavelin], [isPolyfill], [isPermanent] and [isNopackage]. *)
Theorem flags_follow_tags (env : Env) (js : JS.t) (sourceCode : string) :
  let props := JSLoader.docblock_props env sourceCode in
  let js' := JSLoader.parseDocblockOptions env js sourceCode in
  JS.isLegacy js' = (JS.isLegacy js || has_tag "providesLegacy" props) ∧
  JS.isRunWhenReady js' =
    (JS.isRunWhenReady js || has_tag "providesLegacy" props
     || has_tag "javelin" props || has_tag "runWhenReady_DEPRECATED" props) ∧
  JS.isJavelin js' = (JS.isJavelin js || has_tag "javelin" props) ∧
  JS.isPolyfill js' = (JS.isPolyfill js || has_tag "polyfill" props) ∧
  JS.isPermanent js' = (JS.isPermanent js || has_tag "permanent" props) ∧
  JS.isNopackage js' = (JS.isNopackage js || has_tag "nopackage" props).
Proof.
  cbv zeta. unfold JSLoader.parseDocblockOptions.
  generalize (JSLoader.docblock_props env sourceCode). intros props.
  induction props as [|tag props IH] using rev_ind.
  - simpl. by rewrite !orb_false_r.
  - rewrite fold_left_app. simpl.
    destruct (interpret_flags (fold_left JSLoader.interpret props js) tag)
      as (-> & -> & -> & -> & -> & ->).
    destruct IH as (-> & -> & -> & -> & -> & ->).
    rewrite !has_tag_snoc.
    repeat match goal with
           | |- context [has_tag ?name props] => destruct (has_tag name props)
           end;
    repeat match goal with
           | |- context [String.eqb tag.1 ?name] => destruct (String.eqb tag.1 name)
           end;
    rewrite ?orb_false_r, ?orb_true_r; done.
Qed.

(** X14. Whether the descriptor is a module is decided by the last
    [provides], [providesModule], [providesLegacy] or [javelin] tag: it is
    not one after [provides] and is one after the others; without such a
    tag it stays what it was. *)
Theorem last_module_tag_wins (env : Env) (js : JS.t) (sourceCode : string) :
  JS.isModule (JSLoader.parseDocblockOptions env js sourceCode) =
  match last (filter (λ tag, sets_isModule tag = true)
                     (JSLoader.docblock_props env sourceCode)) with
  | Some tag => negb (String.eqb tag.1 "provides")
  | None => JS.isModule js
  end.
Proof.
  unfold JSLoader.parseDocblockOptions.
  generalize (JSLoader.docblock_props env sourceCode). intros props.
  induction props as [|tag props IH] using rev_ind; [done|].
  rewrite fold_left_app. simpl.
  rewrite interpret_isModule, filter_app, filter_cons, filter_nil.
  destruct (sets_isModule tag) eqn:Htag.
  - rewrite decide_True by done. by rewrite last_snoc.
  - rewrite decide_False by congruence. by rewrite app_nil_r.
Qed.

(** X15. Tag interpretation never touches the path, the network size or
    the symbol lists of the descriptor. *)
Theorem tags_leave_path_size_symbols (env : Env) (js : JS.t) (sourceCode : string) :
  let js' := JSLoader.parseDocblockOptions env js sourceCode in
  JS.path js' = JS.path js ∧ JS.networkSize js' = JS.networkSize js ∧
  JS.definedJavelinSymbols js' = JS.definedJavelinSymbols js ∧
  JS.requiredJavelinSymbols js' = JS.requiredJavelinSymbols js.
Proof.
  cbv zeta. unfold JSLoader.parseDocblockOptions.
  generalize (JSLoader.docblock_props env sourceCode). intros props.
  induction props as [|tag props IH] using rev_ind; [done|].
  rewrite fold_left_app. simpl.
  destruct (interpret_frame (fold_left JSLoader.interpret props js) tag)
    as (-> & -> & -> & ->).
  exact IH.
Qed.

End TagEffects.

(** ** More on ingestion *)

Section Pipeline.
Import JSString.

Lemma fold_interpret_path props js :
  JS.path (fold_left JSLoader.interpret props js) = JS.path js.
Proof.
  induction props as [|tag props IH] using rev_ind; [done|].
  rewrite fold_left_app. simpl.
  by destruct (interpret_frame (fold_left JSLoader.interpret props js) tag) as (-> & _).
Qed.

Lemma fold_interpret_isJavelin props js :
  JS.isJavelin (fold_left JSLoader.interpret props js) =
  JS.isJavelin js || has_tag "javelin" props.
Proof.
  induction props as [|tag props IH] using rev_ind.
  - simpl. by rewrite orb_false_r.
  - rewrite fold_left_app. simpl.
    destruct (interpret_flags (fold_left JSLoader.interpret props js) tag)
      as (_ & _ & -> & _).
    by rewrite IH, has_tag_snoc, orb_assoc.
Qed.

Lemma tagged_path env path configuration sourceCode :
  JS.path (tagged env path configuration sourceCode) = path.
Proof.
  unfold tagged, JSLoader.parseDocblockOptions. rewrite fold_interpret_path.
  by destruct configuration.
Qed.

Lemma tagged_isJavelin env path configuration sourceCode :
  JS.isJavelin (tagged env path configuration sourceCode) =
  has_tag "javelin" (JSLoader.docblock_props env sourceCode).
Proof.
  unfold tagged, JSLoader.parseDocblockOptions. rewrite fold_interpret_isJavelin.
  by destruct configuration.
Qed.

Lemma prepared_isJavelin env path configuration sourceCode :
  JS.isJavelin (prepared env path configuration sourceCode) =
  has_tag "javelin" (JSLoader.docblock_props env sourceCode).
Proof.
  rewrite <- (tagged_isJavelin env path configuration sourceCode). unfold prepared.
  destruct (JS.isModule _); [|done].
  destruct configuration as [cfg|]; [|done]. by destruct (negb _).
Qed.

Lemma classify_frame lines acc js :
  JSLoader.descriptor acc = JS.set_id (JS.id (JSLoader.descriptor acc)) js →
  JSLoader.descriptor (fold_left JSLoader.classify_line lines acc) =
  JS.set_id (JS.id (JSLoader.descriptor (fold_left JSLoader.classify_line lines acc))) js.
Proof.
  intros Hacc. induction lines as [|line lines IH] using rev_ind; [done|].
  rewrite classify_fold_snoc. by apply classify_line_frame.
Qed.

Lemma javelinSymbols_requiredModules js output :
  JS.requiredModules (JSLoader.javelinSymbols js output) = JS.requiredModules js.
Proof.
  unfold JSLoader.javelinSymbols, JSLoader.classify. simpl.
  rewrite (classify_frame (split_on LF output)
             {| JSLoader.defines := []; JSLoader.requires := [];
                JSLoader.descriptor := js |} js); [done|].
  by destruct js.
Qed.

Lemma enriched_requiredModules options env js sourceCode js' :
  enriched options env js sourceCode = Some js' →
  JS.requiredModules js' = JS.requiredModules js.
Proof.
  unfold enriched, classified.
  assert (JS.requiredModules
            (if javelin_on options && JS.isJavelin js
             then JSLoader.javelinSymbols js
                    (javelinsymbols env
                       (JSLoader.this_javelinsymbolsPath (JSLoader.create options))
                       sourceCode)
             else js) = JS.requiredModules js) as Hsame.
  { destruct (_ && _); [apply javelinSymbols_requiredModules | done]. }
  destruct (networkSize_on options).
  - destruct (zlib_deflate env sourceCode) as [len|]; [|done].
    intros [= <-]. exact Hsame.
  - intros [= <-]. exact Hsame.
Qed.

(** What the generated pipeline does besides completing. *)
Lemma extractExtra_events options env js sourceCode :
  let extra := JSLoader.extractExtra (JSLoader.create options) env js sourceCode report in
  completions_now extra =
    (if javelin_on options && negb (networkSize_on options) && negb (JS.isJavelin js)
     then [(None, js)] else []) ∧
  extractions extra = [] ∧ resolutions extra = [] ∧
  commands extra =
    (if javelin_on options && JS.isJavelin js
     then [(JSLoader.this_javelinsymbolsPath (JSLoader.create options), sourceCode)]
     else []) ∧
  compressions extra = (if networkSize_on options then [sourceCode] else []).
Proof.
  unfold javelin_on, networkSize_on, JSLoader.create.
  destruct (default _ options) as [size javelin toolPath]. simpl.
  destruct (javelin || truthy toolPath), size; simpl;
    unfold JSLoader.extractJavelinSymbols, JSLoader.extractNetworkSize,
      JSLoader._javelinSymbolsCallback;
    destruct (JS.isJavelin js); simpl;
    try destruct (zlib_deflate env sourceCode); done.
Qed.

(** What [loadFromSource] does before it hands over to the pipeline. *)
Lemma loadFromSource_events this env path configuration sourceCode callback :
  requests_ignore (JSLoader.docblock_props env sourceCode) = false →
  let run := JSLoader.loadFromSource this env path configuration sourceCode callback in
  let js := tagged env path configuration sourceCode in
  let extra := JSLoader.extractExtra this env
                 (prepared env path configuration sourceCode) sourceCode callback in
  commands run = commands extra ∧ compressions run = compressions extra ∧
  extractions run =
    (if JS.isModule js then [sourceCode] else []) ++ extractions extra ∧
  resolutions run =
    (if JS.isModule js && bool_decide (is_Some configuration)
        && negb (truthy (JS.id js))
     then [JS.path js] else []) ++ resolutions extra.
Proof.
  intros Hign. cbv zeta.
  rewrite <- tagged_ignored with (path := path)
    (configuration := configuration) in Hign.
  unfold JSLoader.loadFromSource, prepared. fold (fresh path configuration).
  fold (tagged env path configuration sourceCode). rewrite Hign.
  destruct (JS.isModule _); [|done].
  destruct configuration as [cfg|]; [|done].
  by destruct (negb _).
Qed.

Lemma tagged_requiredModules env path configuration sourceCode :
  JS.requiredModules (tagged env path configuration sourceCode) =
  jsx_modules (JSLoader.docblock_props env sourceCode).
Proof.
  unfold tagged, JSLoader.parseDocblockOptions.
  rewrite (interpret_all_requiredModules _ (fresh path configuration)).
  by destruct configuration.
Qed.


(** X17. The turn in which an ingestion completes. It completes within the
    call for an ignored file, and for a file without [javelin] tag when the
    symbol stage is the only stage; in every other case nothing completes
    within the call. *)
Theorem completion_turn options env path configuration sourceCode :
  let props := JSLoader.docblock_props env sourceCode in
  completions_now (JSLoader.loadFromSource (JSLoader.create options) env path
                     configuration sourceCode report) =
  if requests_ignore props then [(None, tagged env path configuration sourceCode)]
  else if javelin_on options && negb (networkSize_on options)
          && negb (has_tag "javelin" props)
       then [(None, prepared env path configuration sourceCode)]
       else [].
Proof.
  cbv zeta. destruct (requests_ignore _) eqn:Hign.
  - by rewrite loadFromSource_ignored.
  - destruct (loadFromSource_completions (JSLoader.create options) env path
                configuration sourceCode report Hign) as (-> & _).
    destruct (extractExtra_events options env
                (prepared env path configuration sourceCode) sourceCode) as (-> & _).
    by rewrite prepared_isJavelin.
Qed.

(** X18. Require calls are extracted exactly for files that are not
    ignored and are modules after tag interpretation, once; and the
    configuration is asked for an id exactly when, in addition, there is a
    configuration and the tags left no id or an empty one. *)
Theorem collaborators_consulted options env path configuration sourceCode :
  let run := JSLoader.loadFromSource (JSLoader.create options) env path
               configuration sourceCode report in
  let js := tagged env path configuration sourceCode in
  let live := negb (requests_ignore (JSLoader.docblock_props env sourceCode)) in
  extractions run = (if live && JS.isModule js then [sourceCode] else []) ∧
  resolutions run =
    (if live && JS.isModule js && bool_decide (is_Some configuration)
        && negb (truthy (JS.id js))
     then [path] else []).
Proof.
  cbv zeta. destruct (requests_ignore _) eqn:Hign.
  - by rewrite loadFromSource_ignored.
  - destruct (loadFromSource_events (JSLoader.create options) env path
                configuration sourceCode report Hign) as (_ & _ & -> & ->).
    destruct (extractExtra_events options env
                (prepared env path configuration sourceCode) sourceCode)
      as (_ & -> & -> & _).
    by rewrite !app_nil_r, tagged_path.
Qed.


Lemma completion_requiredModules options env path configuration sourceCode :
  let props := JSLoader.docblock_props env sourceCode in
  Forall (λ completion,
            JS.requiredModules completion.2 =
            jsx_modules props ++
            (if negb (requests_ignore props)
                && JS.isModule (tagged env path configuration sourceCode)
             then Some <$> extractRequireCalls env sourceCode else []))
         (completions (JSLoader.loadFromSource (JSLoader.create options) env path
                         configuration sourceCode report)).
Proof.
  cbv zeta. destruct (requests_ignore _) eqn:Hign.
  - rewrite loadFromSource_ignored by done. simpl.
    apply Forall_singleton. simpl. by rewrite tagged_requiredModules, app_nil_r.
  - destruct (loadFromSource_completions (JSLoader.create options) env path
                configuration sourceCode report Hign) as (_ & -> & _).
    destruct (extractExtra_completions options env
                (prepared env path configuration sourceCode) sourceCode) as [-> _].
    destruct (enriched _ _ _ _) as [js'|] eqn:Hjs'; [|apply Forall_nil_2].
    apply Forall_singleton. simpl.
    rewrite (enriched_requiredModules _ _ _ _ _ Hjs').
    rewrite <- (tagged_requiredModules env path configuration sourceCode).
    unfold prepared. destruct (JS.isModule _); [|by rewrite app_nil_r].
    simpl. destruct configuration as [cfg|]; [|done]. by destruct (negb _).
Qed.

(** X20. The descriptor an ingestion completes with has as
    [requiredModules] the values of the [jsx] tags that are not empty, in
    source order, followed, for a file that is not ignored and is a module,
    by the extracted require calls in their order. *)
Theorem required_modules_order options env path configuration sourceCode :
  let props := JSLoader.docblock_props env sourceCode in
  Forall (λ completion,
            JS.requiredModules completion.2 =
            jsx_modules props ++
            (if negb (requests_ignore props)
                && JS.isModule (tagged env path configuration sourceCode)
             then Some <$> extractRequireCalls env sourceCode else []))
         (completions (JSLoader.loadFromSource (JSLoader.create options) env path
                         configuration sourceCode report)).
Proof. apply completion_requiredModules. Qed.

End Pipeline.

(** ** More on the post-process pass *)

Section PostProcessEdges.
Import JSString.

Lemma set_requiredModules_same (r : JS.t) :
  JS.set_requiredModules (JS.requiredModules r) r = r.
Proof. by destruct r. Qed.

Lemma resolve_from_length map rpath fuel i (required : list (option string)) :
  List.length (JSLoader.resolve_from map rpath fuel i required).1 = List.length required.
Proof.
  revert i required. induction fuel as [|fuel IH]; intros i required; [done|].
  cbn [JSLoader.resolve_from].
  destruct (required !! i) as [[req|]|]; [|done..].
  destruct (starts_with_dot req); [|apply IH].
  destruct (JSLoader.getResourceByPath map _) as [resource|].
  - by rewrite IH, length_insert.
  - destruct (JSLoader.getResourceByPath map _) as [resource|]; [|apply IH].
    by rewrite IH, length_insert.
Qed.

Lemma resolve_shape map r :
  let r' := (JSLoader.resolve map r).1 in
  r' = JS.set_requiredModules (JS.requiredModules r') r ∧
  List.length (JS.requiredModules r') = List.length (JS.requiredModules r).
Proof.
  cbv zeta. unfold JSLoader.resolve.
  pose proof (resolve_from_length map (JS.path r)
                (S (List.length (JS.requiredModules r))) 0 (JS.requiredModules r)) as Hlen.
  destruct (JSLoader.resolve_from _ _ _ _ _) as [required outcome]. simpl in *.
  done.
Qed.

Lemma resolve_from_undefined map rpath fuel i (required : list (option string)) :
  (i ≤ List.length required)%nat → (List.length required < i + fuel)%nat →
  None ∈ drop i required →
  (JSLoader.resolve_from map rpath fuel i required).2 =
  JSLoader.Threw "TypeError: req is undefined".
Proof.
  revert i required. induction fuel as [|fuel IH]; intros i required Hi Hfuel Hin;
    [lia|].
  cbn [JSLoader.resolve_from].
  destruct (required !! i) as [entry|] eqn:Hentry.
  - pose proof (lookup_lt_Some _ _ _ Hentry) as Hlt.
    rewrite (drop_S _ _ _ Hentry) in Hin.
    destruct entry as [req|]; [|done].
    apply elem_of_cons in Hin as [[=]|Hin].
    assert (∀ e, (JSLoader.resolve_from map rpath fuel (S i) (<[i := e]> required)).2 =
                 JSLoader.Threw "TypeError: req is undefined") as Hstep.
    { intros e. apply IH; rewrite ?length_insert; [lia..|].
      by rewrite drop_insert_lt by lia. }
    assert ((JSLoader.resolve_from map rpath fuel (S i) required).2 =
            JSLoader.Threw "TypeError: req is undefined") as Hsame
      by (apply IH; [lia..|done]).
    destruct (starts_with_dot req); [|done].
    destruct (JSLoader.getResourceByPath map _) as [resource|]; [apply Hstep|].
    destruct (JSLoader.getResourceByPath map _) as [resource|]; [apply Hstep|done].
  - apply lookup_ge_None in Hentry. rewrite drop_ge in Hin by lia.
    by apply elem_of_nil in Hin.
Qed.

Lemma resolve_undefined map r :
  None ∈ JS.requiredModules r →
  (JSLoader.resolve map r).2 = JSLoader.Threw "TypeError: req is undefined".
Proof.
  intros Hin. unfold JSLoader.resolve.
  pose proof (resolve_from_undefined map (JS.path r)
                (S (List.length (JS.requiredModules r))) 0 (JS.requiredModules r)
                ltac:(lia) ltac:(lia) Hin) as Hthrew.
  by destruct (JSLoader.resolve_from _ _ _ _ _) as [required outcome].
Qed.

Lemma all_strings_or_undefined (entries : list (option string)) :
  Forall is_Some entries ∨ None ∈ entries.
Proof.
  induction entries as [|[req|] entries [IH|IH]].
  - left. constructor.
  - left. constructor; [by eexists | done].
  - right. by apply list_elem_of_further.
  - right. apply list_elem_of_here.
  - right. apply list_elem_of_here.
Qed.

(** X21. When a required module of some resource is undefined, as a pass
    leaves it that found a resource without id, the pass throws a
    TypeError and does not schedule its callback. *)
Theorem undefined_entry_throws map resources callback :
  (∃ r, r ∈ resources ∧ None ∈ JS.requiredModules r) →
  (JSLoader.postProcess map resources callback).2 =
  Uncaught "TypeError: req is undefined".
Proof.
  intros Hundefined.
  assert ((JSLoader.resolve_each map resources).2 =
          JSLoader.Threw "TypeError: req is undefined") as Hthrew.
  { induction resources as [|r resources IH].
    - destruct Hundefined as (r & ?%elem_of_nil & _). done.
    - cbn [JSLoader.resolve_each].
      destruct (all_strings_or_undefined (JS.requiredModules r)) as [Hstr|Hin].
      + rewrite resolve_strings by done.
        destruct Hundefined as (r' & [->|Hr']%elem_of_cons & Hnone).
        * rewrite Forall_forall in Hstr. by destruct (Hstr None Hnone).
        * specialize (IH ltac:(by exists r')).
          by destruct (JSLoader.resolve_each map resources).
      + pose proof (resolve_undefined map r Hin) as Hr.
        destruct (JSLoader.resolve map r) as [r' outcome]. simpl in Hr. by subst. }
  unfold JSLoader.postProcess.
  destruct (JSLoader.resolve_each map resources) as [resources' outcome].
  simpl in Hthrew. by subst.
Qed.

Lemma undefined_entry_throws_witness :
  let anonymous := JS.new "foo.js" in
  let once := (JSLoader.postProcess (JSLoader.resourceMap [anonymous; bar "./foo"])
                 [anonymous; bar "./foo"] Return).1 in
  (∃ r, r ∈ once ∧ None ∈ JS.requiredModules r) ∧
  (JSLoader.postProcess (JSLoader.resourceMap once) once Return).2 =
  Uncaught "TypeError: req is undefined".
Proof.
  assert (∃ r, r ∈ [JS.new "foo.js"; JS.set_requiredModules [None] (bar "./foo")] ∧
               None ∈ JS.requiredModules r) as Hundefined.
  { exists (JS.set_requiredModules [None] (bar "./foo")).
    split; [apply list_elem_of_further, list_elem_of_here | apply list_elem_of_here]. }
  split; [exact Hundefined|].
  exact (undefined_entry_throws
           (JSLoader.resourceMap [JS.new "foo.js"; JS.set_requiredModules [None] (bar "./foo")])
           [JS.new "foo.js"; JS.set_requiredModules [None] (bar "./foo")] Return Hundefined).
Defined.

(** X22. A pass over resources none of whose required modules begins with
    a dot changes nothing and schedules its callback. *)
Theorem no_relative_requires_unchanged map resources callback :
  Forall (λ r, Forall (λ entry, ∃ req, entry = Some req ∧ starts_with_dot req = false)
                      (JS.requiredModules r)) resources →
  JSLoader.postProcess map resources callback = (resources, NextTick callback Return).
Proof.
  intros Hplain. unfold JSLoader.postProcess.
  rewrite resolve_each_strings.
  - f_equal. induction Hplain as [|r resources Hr _ IH]; [done|].
    rewrite fmap_cons, IH. f_equal. unfold rewritten.
    rewrite <- (set_requiredModules_same r) at 3. f_equal.
    induction Hr as [|entry entries (req & -> & Hdot) _ IHr]; [done|].
    rewrite fmap_cons, IHr. simpl. unfold resolved. by rewrite Hdot.
  - eapply Forall_impl; [exact Hplain|]. intros r Hr.
    eapply Forall_impl; [exact Hr|]. by intros entry (req & -> & _).
Qed.

Lemma no_relative_requires_unchanged_witness :
  let resources := [foo; bar "Foo"] in
  Forall (λ r, Forall (λ entry, ∃ req, entry = Some req ∧ starts_with_dot req = false)
                      (JS.requiredModules r)) resources ∧
  JSLoader.postProcess (JSLoader.resourceMap resources) resources Return =
  (resources, NextTick Return Return).
Proof.
  assert (Forall (λ r, Forall (λ entry, ∃ req, entry = Some req ∧
                                               starts_with_dot req = false)
                              (JS.requiredModules r)) [foo; bar "Foo"]) as Hplain.
  { repeat constructor. by exists "Foo". }
  split; [exact Hplain|].
  exact (no_relative_requires_unchanged (JSLoader.resourceMap [foo; bar "Foo"])
           [foo; bar "Foo"] Return Hplain).
Defined.

(** X23. Whether it finishes or throws, the pass hands back as many
    resources as it was given, each with as many required modules as
    before and with every other field untouched. *)
Theorem postProcess_keeps_shape map resources callback :
  Forall2 (λ r r', r' = JS.set_requiredModules (JS.requiredModules r') r ∧
                   List.length (JS.requiredModules r') =
                   List.length (JS.requiredModules r))
          resources (JSLoader.postProcess map resources callback).1.
Proof.
  assert (Forall2 (λ r r', r' = JS.set_requiredModules (JS.requiredModules r') r ∧
                           List.length (JS.requiredModules r') =
                           List.length (JS.requiredModules r))
                  resources (JSLoader.resolve_each map resources).1) as Hshape.
  { induction resources as [|r resources IH]; [constructor|].
    cbn [JSLoader.resolve_each].
    pose proof (resolve_shape map r) as Hr.
    destruct (JSLoader.resolve map r) as [r' outcome]. simpl in Hr.
    assert (Forall2 (λ r r', r' = JS.set_requiredModules (JS.requiredModules r') r ∧
                             List.length (JS.requiredModules r') =
                             List.length (JS.requiredModules r))
                    resources resources) as Hrest.
    { apply Forall_Forall2_diag, Forall_forall. intros x _.
      by rewrite set_requiredModules_same. }
    destruct outcome; [|by constructor..].
    destruct (JSLoader.resolve_each map resources) as [rest outcome].
    by constructor. }
  unfold JSLoader.postProcess.
  destruct (JSLoader.resolve_each map resources) as [resources' [| |]]; exact Hshape.
Qed.

End PostProcessEdges.

(** ** Ingestion followed by the post-process pass *)

Section IngestThenResolve.

(** X24. A pass over the descriptors that ingestions completed with does
    not throw: every required module of such a descriptor is a string, so
    that the pass finishes and schedules its callback. *)
Theorem ingested_resources_resolve options env path configuration sourceCode
    map callback :
  let ingested := snd <$> completions
                    (JSLoader.loadFromSource (JSLoader.create options) env path
                       configuration sourceCode report) in
  Forall (λ r, Forall is_Some (JS.requiredModules r)) ingested ∧
  (JSLoader.postProcess map ingested callback).2 = NextTick callback Return.
Proof.
  cbv zeta.
  pose proof (completion_requiredModules options env path configuration sourceCode)
    as Hmodules. cbv zeta in Hmodules.
  assert (Forall (λ r, Forall is_Some (JS.requiredModules r))
            (snd <$> completions
               (JSLoader.loadFromSource (JSLoader.create options) env path
                  configuration sourceCode report))) as Hstr.
  { apply Forall_fmap. eapply Forall_impl; [exact Hmodules|].
    intros completion Heq. simpl in *. rewrite Heq.
    apply Forall_app. split.
    - unfold jsx_modules. apply Forall_fmap, Forall_forall. by eexists.
    - destruct (_ && _); [|constructor].
      apply Forall_fmap, Forall_forall. by eexists. }
  split; [exact Hstr|].
  unfold JSLoader.postProcess. by rewrite resolve_each_strings.
Qed.

End IngestThenResolve.
